(** * Alert.py: the Steam Market price monitor, embedded in Rocq

    The development follows [src/Alert.py] function by function:

    - [Str]: the operations of Python's [str] that the script uses
      ([replace], [strip], [in]), on byte strings (UTF-8, as in the file).
    - [PyFloat]: Python's [float] as IEEE 754 binary64 ([spec_float]), with
      the conversions the script relies on: [float(str)], [round(x, 2)] and
      [str(float)].
    - [Json]: the value returned by [response.json()].
    - [World]: the outside world the script talks to (HTTP, files, clock,
      console), threaded through a state and exception monad.
    - [Alert]: the functions of the script, in source order.
    - the theorems. *)

From Stdlib Require Import ZArith Ascii String List Bool Lia.
From Stdlib Require Import SpecFloat DecimalString.
From stdpp Require Import gmap strings.

Set Warnings "-register-all".

Local Open Scope Z_scope.

(** ** Python's [str], as far as the script uses it *)
Module Str.

(** ASCII white space as [str.strip] and [float] see it:
    TAB, LF, VT, FF, CR, FS, GS, RS, US and SPACE. The non-ASCII white
    space of Unicode (U+0085, U+00A0, U+2000 ...) is left alone. *)
Definition is_space (c : ascii) : bool :=
  let n := N_of_ascii c in
  ((9 <=? n) && (n <=? 13) || (28 <=? n) && (n <=? 32))%N.

Fixpoint lstrip (s : string) : string :=
  match s with
  | String c r => if is_space c then lstrip r else s
  | EmptyString => EmptyString
  end.

Fixpoint rstrip (s : string) : string :=
  match s with
  | String c r =>
      match rstrip r with
      | EmptyString => if is_space c then EmptyString else String c EmptyString
      | r' => String c r'
      end
  | EmptyString => EmptyString
  end.

(** [s.strip()] *)
Definition strip (s : string) : string := lstrip (rstrip s).

(** [s.startswith(p)] *)
Fixpoint startswith (p s : string) : bool :=
  match p, s with
  | EmptyString, _ => true
  | String a p', String b s' => Ascii.eqb a b && startswith p' s'
  | String _ _, EmptyString => false
  end.

(** [p in s] *)
Fixpoint contains (p s : string) : bool :=
  startswith p s ||
  match s with
  | String _ r => contains p r
  | EmptyString => false
  end.

Fixpoint drop (n : nat) (s : string) : string :=
  match n, s with
  | S n', String _ r => drop n' r
  | _, _ => s
  end.

(** [s.replace(old, new)] for a non-empty [old] (all the script's calls):
    the occurrences are taken from left to right, without overlap. [fuel]
    bounds the number of steps; [String.length s] is enough. *)
Fixpoint replace_go (fuel : nat) (old new s : string) : string :=
  match fuel, s with
  | S fuel', String c r =>
      if startswith old s
      then new +:+ replace_go fuel' old new (drop (String.length old) s)
      else String c (replace_go fuel' old new r)
  | _, _ => s
  end.

Definition replace (old new s : string) : string :=
  match old with
  | EmptyString => s
  | _ => replace_go (String.length s) old new s
  end.

Definition lower_char (c : ascii) : ascii :=
  let n := N_of_ascii c in
  if ((65 <=? n) && (n <=? 90))%N then ascii_of_N (n + 32) else c.

Fixpoint lower (s : string) : string :=
  match s with
  | String c r => String (lower_char c) (lower r)
  | EmptyString => EmptyString
  end.

(** [P] holds of every character of [s]. *)
Fixpoint all (P : ascii -> bool) (s : string) : bool :=
  match s with
  | String c r => P c && all P r
  | EmptyString => true
  end.

(** Nothing but white space. *)
Definition blank (s : string) : bool := all is_space s.

(** The characters that end a line of a text file: LF and CR. *)
Definition is_newline (c : ascii) : bool :=
  Ascii.eqb c (ascii_of_nat 10) || Ascii.eqb c (ascii_of_nat 13).

(** No line end inside. *)
Definition one_line (s : string) : bool := all (fun c => negb (is_newline c)) s.

End Str.

(** ** Python's [float]: IEEE 754 binary64 *)
Module PyFloat.

Abbreviation float := spec_float.

Definition prec : Z := 53.
Definition emax : Z := 1024.

(** [x * y], [x - y], [abs(x)], [x == y], [x <= y] *)
Definition mul : float -> float -> float := SFmul prec emax.
Definition sub : float -> float -> float := SFsub prec emax.
Definition abs : float -> float := SFabs.
Definition eqb : float -> float -> bool := SFeqb.
Definition leb : float -> float -> bool := SFleb.

(** [x != y] is [not (x == y)]: true as soon as one side is NaN. *)
Definition neb (x y : float) : bool := negb (eqb x y).

(** The binary64 nearest to [n / d] (ties to even), for any positive
    integers: the division of the library rounds the exact quotient of
    two finite values once, whatever the size of their mantissas. *)
Definition of_ratio (neg : bool) (n d : positive) : float :=
  SFdiv prec emax (S754_finite neg n 0) (S754_finite false d 0).

(** The binary64 nearest to [m * 10^e10], of the sign [neg]: what C's
    [strtod] returns for a decimal literal. *)
Definition of_decimal (neg : bool) (m : Z) (e10 : Z) : float :=
  match m with
  | Zpos p =>
      if 0 <=? e10 then of_ratio neg (p * Z.to_pos (10 ^ e10)) 1
      else of_ratio neg p (Z.to_pos (10 ^ (- e10)))
  | _ => S754_zero neg
  end.

(** An [int] as a [float]. *)
Definition of_Z (z : Z) : float := of_decimal (z <? 0) (Z.abs z) 0.

(** [bool(x)]: zero is false, everything else (NaN included) is true. *)
Definition truthy (x : float) : bool :=
  match x with
  | S754_zero _ => false
  | _ => true
  end.

(** The integer nearest to [a / b] for [0 <= a] and [0 < b], ties to even. *)
Definition div_half_even (a b : Z) : Z :=
  let q := a / b in
  match (2 * (a mod b)) ?= b with
  | Lt => q
  | Gt => q + 1
  | Eq => if Z.even q then q else q + 1
  end.

(** [round(x, ndigits)] for [0 <= ndigits]: CPython prints [x] with
    [ndigits] decimals, correctly rounded (ties to even on the exact binary
    value), and reads the result back. NaN and the infinities round to
    themselves; the sign of [x] is kept, also on a zero result. *)
Definition round (x : float) (ndigits : Z) : float :=
  match x with
  | S754_finite s m e =>
      let scaled := Zpos m * 10 ^ ndigits in
      let n := if 0 <=? e then scaled * 2 ^ e
               else div_half_even scaled (2 ^ (- e)) in
      of_decimal s n (- ndigits)
  | _ => x
  end.

(** *** [float(s)] *)

Definition digit_of (c : ascii) : option Z :=
  let n := N_of_ascii c in
  if ((48 <=? n) && (n <=? 57))%N then Some (Z.of_N n - 48) else None.

(** A run of decimal digits, where single underscores may separate two
    digits: the value read so far, the number of digits, and what is left.
    [after_digit] tells that the character before [s] was a digit. *)
Fixpoint take_digits (after_digit : bool) (acc : Z) (n : Z) (s : string)
  : Z * Z * string :=
  match s with
  | String c r =>
      match digit_of c with
      | Some d => take_digits true (10 * acc + d) (n + 1) r
      | None =>
          if after_digit && Ascii.eqb c "_" then
            match r with
            | String c' r' =>
                match digit_of c' with
                | Some d => take_digits true (10 * acc + d) (n + 1) r'
                | None => (acc, n, s)
                end
            | EmptyString => (acc, n, s)
            end
          else (acc, n, s)
      end
  | EmptyString => (acc, n, s)
  end.

(** An optional sign: whether it is a minus, and what is left. *)
Definition take_sign (s : string) : bool * string :=
  match s with
  | String c r =>
      if Ascii.eqb c "-" then (true, r)
      else if Ascii.eqb c "+" then (false, r)
      else (false, s)
  | EmptyString => (false, s)
  end.

(** The exponent part, up to the end of the string: nothing, or [e] or [E],
    an optional sign and at least one digit. *)
Definition take_exponent (s : string) : option Z :=
  match s with
  | EmptyString => Some 0
  | String c r =>
      if Ascii.eqb (Str.lower_char c) "e" then
        let '(neg, r1) := take_sign r in
        match take_digits false 0 0 r1 with
        | (v, n, EmptyString) =>
            if 0 <? n then Some (if neg then - v else v) else None
        | _ => None
        end
      else None
  end.

(** [float(s)]: [None] stands for [ValueError]. White space around the
    literal is ignored; the literal is [inf], [infinity] or [nan] in any
    case, or a decimal number with an optional fraction and exponent.
    (Digits other than ASCII ones are not recognised.) *)
Definition of_str (s0 : string) : option float :=
  let '(neg, s) := take_sign (Str.strip s0) in
  let l := Str.lower s in
  if String.eqb l "inf" || String.eqb l "infinity" then Some (S754_infinity neg)
  else if String.eqb l "nan" then Some S754_nan
  else
    let '(ip, ni, s1) := take_digits false 0 0 s in
    let '(m, nf, s2) :=
      match s1 with
      | String c r =>
          if Ascii.eqb c "." then take_digits false ip 0 r else (ip, 0, s1)
      | EmptyString => (ip, 0, s1)
      end in
    if 0 <? ni + nf then
      match take_exponent s2 with
      | Some e => Some (of_decimal neg m (e - nf))
      | None => None
      end
    else None.

(** *** [str(x)], [repr(x)] and [f"{x}"] *)

(** Structural equality: the same binary64 value, zeros of different sign
    told apart. *)
Definition same (x y : float) : bool :=
  match x, y with
  | S754_zero s, S754_zero s' => Bool.eqb s s'
  | S754_infinity s, S754_infinity s' => Bool.eqb s s'
  | S754_nan, S754_nan => true
  | S754_finite s m e, S754_finite s' m' e' =>
      Bool.eqb s s' && Pos.eqb m m' && Z.eqb e e'
  | _, _ => false
  end.

(** The decimal digits of a positive integer, and their number. *)
Definition dec_str (n : Z) : string :=
  NilZero.string_of_uint (N.to_uint (Z.to_N n)).

Definition ndigits (n : Z) : Z := Z.of_nat (String.length (dec_str n)).

(** The decimal exponent [E] of the positive rational [p / q]:
    [10^(E-1) <= p / q < 10^E]. *)
Definition decpt (p q : Z) : Z :=
  if q <=? p then ndigits (p / q)
  else 1 - ndigits ((q + p - 1) / p - 1).

(** The shortest decimal that reads back as [x] (the positive finite value
    [p / q]): with [n], [n + 1], ... significant digits, the two decimals
    around [x] are tried, and of two that read back as [x] the nearer wins
    (the even one on a tie). The result [(d, a)] stands for [d * 10^a].
    Seventeen digits always suffice. *)
Fixpoint shortest (fuel : nat) (n : Z) (x : float) (p q E : Z) : Z * Z :=
  match fuel with
  | O => (0, 0)
  | S fuel' =>
      let a := E - n in
      let num := if 0 <=? a then p else p * 10 ^ (- a) in
      let den := if 0 <=? a then q * 10 ^ a else q in
      let lo := num / den in
      let hi := lo + 1 in
      let ok_lo := same (of_decimal false lo a) x in
      let ok_hi := same (of_decimal false hi a) x in
      let hi_nearer :=
        match 2 * num ?= (2 * lo + 1) * den with
        | Gt => true
        | Lt => false
        | Eq => Z.odd lo
        end in
      if ok_lo && ok_hi then (if hi_nearer then hi else lo, a)
      else if ok_lo then (lo, a)
      else if ok_hi then (hi, a)
      else shortest fuel' (n + 1) x p q E
  end.

Fixpoint zeros (n : nat) : string :=
  match n with
  | O => EmptyString
  | S n' => String "0" (zeros n')
  end.

(** [s] without its trailing zeros. *)
Fixpoint strip_zeros (s : string) : string :=
  match s with
  | String c r =>
      match strip_zeros r with
      | EmptyString => if Ascii.eqb c "0" then EmptyString else String c EmptyString
      | r' => String c r'
      end
  | EmptyString => EmptyString
  end.

Fixpoint take (n : nat) (s : string) : string :=
  match n, s with
  | S n', String c r => String c (take n' r)
  | _, _ => EmptyString
  end.

(** The exponent of the scientific notation: a sign and at least two digits. *)
Definition exp_str (e : Z) : string :=
  (if e <? 0 then "-" else "+") +:+
  (if Z.abs e <? 10 then "0" else "") +:+ dec_str (Z.abs e).

(** The digits [ds], read as [0.ds * 10^dp], laid out as [repr] does: in
    scientific notation when [dp <= -4] or [16 < dp], and otherwise in
    positional notation with at least one digit after the point. *)
Definition format_repr (ds : string) (dp : Z) : string :=
  let len := Z.of_nat (String.length ds) in
  if (dp <=? -4) || (16 <? dp) then
    match ds with
    | String d (String _ _ as r) => String d ("." +:+ r) +:+ "e" +:+ exp_str (dp - 1)
    | _ => ds +:+ "e" +:+ exp_str (dp - 1)
    end
  else if dp <=? 0 then "0." +:+ zeros (Z.to_nat (- dp)) +:+ ds
  else if len <=? dp then ds +:+ zeros (Z.to_nat (dp - len)) +:+ ".0"
  else take (Z.to_nat dp) ds +:+ "." +:+ Str.drop (Z.to_nat dp) ds.

Definition sign_str (s : bool) : string := if s then "-" else "".

(** [str(x)] (also [repr(x)] and [f"{x}"]). *)
Definition to_str (x : float) : string :=
  match x with
  | S754_nan => "nan"
  | S754_infinity s => sign_str s +:+ "inf"
  | S754_zero s => sign_str s +:+ "0.0"
  | S754_finite s m e =>
      let p := if 0 <=? e then Zpos m * 2 ^ e else Zpos m in
      let q := if 0 <=? e then 1 else 2 ^ (- e) in
      let '(d, a) := shortest 17 1 (S754_finite false m e) p q (decpt p q) in
      let ds := dec_str d in
      sign_str s +:+
      format_repr (strip_zeros ds) (a + Z.of_nat (String.length ds))
  end.

(** The characters that the text of a float is made of. *)
Definition float_chars : string := "0123456789.e+-infa".

Definition float_char (c : ascii) : bool :=
  existsb (Ascii.eqb c) (list_ascii_of_string float_chars).

End PyFloat.

(** ** The value of [response.json()] *)
Module Json.

Import PyFloat.

Inductive value : Type :=
| JNull
| JBool (b : bool)
| JInt (n : Z)
| JFloat (x : float)
| JString (s : string)
| JArray (l : list value)
| JObject (items : list (string * value)).

(** [bool(v)] *)
Definition truthy (v : value) : bool :=
  match v with
  | JNull => false
  | JBool b => b
  | JInt n => negb (n =? 0)
  | JFloat x => PyFloat.truthy x
  | JString s => negb (String.eqb s "")
  | JArray l => match l with [] => false | _ => true end
  | JObject items => match items with [] => false | _ => true end
  end.

(** The value under [key] in the items of a dict. *)
Fixpoint lookup (key : string) (items : list (string * value)) : option value :=
  match items with
  | (k, v) :: rest => if String.eqb k key then Some v else lookup key rest
  | [] => None
  end.

End Json.

(** ** The world outside the script *)
Module World.

Import PyFloat.

(** The exceptions that reach the script's handlers. *)
Inductive exn : Type :=
| ConnectionError
| Timeout
| JSONDecodeError
| AttributeError
| ValueError.

(** [isinstance(e, ValueError)]: [JSONDecodeError] is a subclass. *)
Definition is_ValueError (e : exn) : bool :=
  match e with
  | ValueError | JSONDecodeError => true
  | _ => false
  end.

(** [isinstance(e, Exception)] *)
Definition is_Exception (e : exn) : bool := true.

(** An HTTP response: its status, and its body when that is JSON. *)
Record response : Type := {
  status_code : Z;
  body : option Json.value
}.

(** What a request meets: an exception of [requests] (no connection, the
    timeout), or a response. *)
Inductive outcome : Type :=
| Raises (e : exn)
| Responds (r : response).

(** [datetime.now()] *)
Record datetime : Type := {
  year : Z; month : Z; day : Z; hour : Z; minute : Z; second : Z
}.

(** The lines the script prints, by the [print] call they come from. *)
Inductive message : Type :=
| MsgInvalidFormat (price_str : string)
| MsgNoValidPrice (attempt : Z)
| MsgFetchError (attempt : Z) (e : exn)
| MsgFailedAfterRetries
| MsgNotificationSent (skin_name : string)
| MsgIftttError (status : Z)
| MsgLogged (skin_name entry : string)
| MsgNoChangeToLog (skin_name : string)
| MsgErrorAlertSent
| MsgErrorAlertFailed (status : Z)
| MsgErrorAlertNotSent (e : exn)
| MsgFetchingInitial
| MsgStartingAt (skin_name : string) (price : float)
| MsgCouldNotFetch (skin_name : string)
| MsgMonitoring
| MsgFailedToFetch (skin_name : string)
| MsgChanged (skin_name : string) (old_price current_price : float)
| MsgSignificant (difference : float)
| MsgMinor (difference : float).

(** What the script does to the world, in order. *)
Inductive event : Type :=
| EvGet (url : string) (timeout : Z)
| EvPost (url : string) (json : list (string * string))
| EvSleep (seconds : Z)
| EvPrint (m : message)
| EvAppend (path text : string).

(** The world: what is scripted for the requests and clock readings to
    come, how many of each were made, the files, and the events so far
    (oldest first). *)
Record world : Type := {
  get_script : nat -> outcome;
  post_script : nat -> outcome;
  clock : nat -> datetime;
  n_get : nat;
  n_post : nat;
  n_now : nat;
  files : gmap string string;
  trace : list event
}.

Definition emit (e : event) (w : world) : world :=
  {| get_script := get_script w; post_script := post_script w;
     clock := clock w; n_get := n_get w; n_post := n_post w;
     n_now := n_now w; files := files w; trace := trace w ++ [e] |}.

Definition count_get (w : world) : world :=
  {| get_script := get_script w; post_script := post_script w;
     clock := clock w; n_get := S (n_get w); n_post := n_post w;
     n_now := n_now w; files := files w; trace := trace w |}.

Definition count_post (w : world) : world :=
  {| get_script := get_script w; post_script := post_script w;
     clock := clock w; n_get := n_get w; n_post := S (n_post w);
     n_now := n_now w; files := files w; trace := trace w |}.

Definition count_now (w : world) : world :=
  {| get_script := get_script w; post_script := post_script w;
     clock := clock w; n_get := n_get w; n_post := n_post w;
     n_now := S (n_now w); files := files w; trace := trace w |}.

Definition set_files (f : gmap string string) (w : world) : world :=
  {| get_script := get_script w; post_script := post_script w;
     clock := clock w; n_get := n_get w; n_post := n_post w;
     n_now := n_now w; files := f; trace := trace w |}.

(** *** Computations: a state and exception monad over the world *)

Inductive result (A : Type) : Type :=
| Ok (a : A)
| Raise (e : exn).

Arguments Ok {A} a.
Arguments Raise {A} e.

Definition M (A : Type) : Type := world -> result A * world.

Definition ret {A : Type} (a : A) : M A := fun w => (Ok a, w).

Definition raise {A : Type} (e : exn) : M A := fun w => (Raise e, w).

Definition bind {A B : Type} (m : M A) (k : A -> M B) : M B :=
  fun w =>
    match m w with
    | (Ok a, w') => k a w'
    | (Raise e, w') => (Raise e, w')
    end.

(** [try: body / except <handles> as e: handler e] *)
Definition try_except {A : Type} (body : M A) (handles : exn -> bool)
    (handler : exn -> M A) : M A :=
  fun w =>
    match body w with
    | (Ok a, w') => (Ok a, w')
    | (Raise e, w') => if handles e then handler e w' else (Raise e, w')
    end.

Declare Scope alert_scope.
Delimit Scope alert_scope with alert.
Notation "x <- c1 ;; c2" := (bind c1 (fun x => c2))
  (at level 100, c1 at next level, right associativity) : alert_scope.
Notation "c1 ;; c2" := (bind c1 (fun _ => c2))
  (at level 100, right associativity) : alert_scope.
Local Open Scope alert_scope.

(** *** The operations on the world *)

(** [requests.get(url, timeout=timeout)] *)
Definition requests_get (url : string) (timeout : Z) : M response :=
  fun w =>
    let w' := count_get (emit (EvGet url timeout) w) in
    match get_script w (n_get w) with
    | Raises e => (Raise e, w')
    | Responds r => (Ok r, w')
    end.

(** [requests.post(url, json=data)] *)
Definition requests_post (url : string) (data : list (string * string)) : M response :=
  fun w =>
    let w' := count_post (emit (EvPost url data) w) in
    match post_script w (n_post w) with
    | Raises e => (Raise e, w')
    | Responds r => (Ok r, w')
    end.

(** [response.json()] *)
Definition response_json (r : response) : M Json.value :=
  match body r with
  | Some v => ret v
  | None => raise JSONDecodeError
  end.

(** [time.sleep(seconds)], for a pause that is not negative (a negative
    one is a [ValueError] in Python, which the model does not raise). *)
Definition sleep (seconds : Z) : M unit := fun w => (Ok tt, emit (EvSleep seconds) w).

(** [print(...)] *)
Definition print (m : message) : M unit := fun w => (Ok tt, emit (EvPrint m) w).

(** [datetime.now()] *)
Definition now : M datetime := fun w => (Ok (clock w (n_now w)), count_now w).

(** [os.makedirs(folder, exist_ok=True)]: directories are not modelled. The
    folder is taken to be one that can be made and written to: an empty
    path, a missing right or a full disk, on which Python raises [OSError],
    are not among the behaviours of the model. *)
Definition makedirs (folder : string) : M unit := ret tt.

(** [os.path.exists(path)] *)
Definition path_exists (path : string) : M bool :=
  fun w => (Ok (bool_decide (is_Some (files w !! path))), w).

(** The line feed. *)
Definition LF : string := String (ascii_of_nat 10) EmptyString.

(** The lines of a text, each with its line end, as a file opened in text
    mode yields them: a line ends at LF, CR LF or CR, all read as LF. *)
Fixpoint lines_of (s : string) : list string :=
  match s with
  | EmptyString => []
  | String c r =>
      if Ascii.eqb c (ascii_of_nat 10) then LF :: lines_of r
      else if Ascii.eqb c (ascii_of_nat 13) then
        match r with
        | String c' r' =>
            if Ascii.eqb c' (ascii_of_nat 10) then LF :: lines_of r'
            else LF :: lines_of r
        | EmptyString => [LF]
        end
      else
        match lines_of r with
        | l :: ls => String c l :: ls
        | [] => [String c EmptyString]
        end
  end.

(** [with open(path, "r", encoding="utf-8") as f: f.readlines()], for a file
    that exists and holds UTF-8 text (on other bytes Python raises
    [UnicodeDecodeError], which the model does not). *)
Definition readlines (path : string) : M (list string) :=
  fun w => (Ok (lines_of (default EmptyString (files w !! path))), w).

(** [with open(path, "a", encoding="utf-8") as f: f.write(text)]: the file
    is created when it is missing. Its directory is taken to exist (see
    [makedirs]): the model does not raise the [FileNotFoundError] that
    Python has for a path into a missing directory, as a skin name with a
    slash gives. *)
Definition append_file (path text : string) : M unit :=
  fun w =>
    let old := default EmptyString (files w !! path) in
    (Ok tt, set_files (<[path := old +:+ text]> (files w)) (emit (EvAppend path text) w)).

(** [for x in xs: s = f(s, x)] *)
Fixpoint for_each {A S : Type} (f : S -> A -> M S) (xs : list A) (s : S) : M S :=
  match xs with
  | [] => ret s
  | x :: xs' => s' <- f s x ;; for_each f xs' s'
  end.

End World.

(** ** Alert.py *)
Module Alert.

Import PyFloat World.
Local Open Scope alert_scope.

(** The settings of [Config.py], which is not among the sources: the
    monitored skins with their price URLs (a dict, in insertion order), the
    webhook, the folder of the logs and the pause after each item. *)
Record config : Type := {
  SKINS : list (string * string);
  IFTTT_URL : string;
  LOG_FOLDER : string;
  CHECK_INTERVAL : Z
}.

(** How an iteration of a [for] loop whose body may [return] ends. *)
Inductive flow (A : Type) : Type :=
| Return (a : A)
| Next.

Arguments Return {A} a.
Arguments Next {A}.

(** [data.get(key)]: only a dict has the method. *)
Definition py_get (data : Json.value) (key : string) : M Json.value :=
  match data with
  | Json.JObject items => ret (default Json.JNull (Json.lookup key items))
  | _ => raise AttributeError
  end.

(** The receiver of [price_str.replace(...)]: only a [str] has the method. *)
Definition as_str (v : Json.value) : M string :=
  match v with
  | Json.JString s => ret s
  | _ => raise AttributeError
  end.

(** [float(s)], raising [ValueError]. *)
Definition float_of (s : string) : M float :=
  match of_str s with
  | Some x => ret x
  | None => raise ValueError
  end.

(** The cleaning of the price string (lines 18 to 24). *)
Definition clean_price (price_str : string) : string :=
  Str.strip
    (Str.replace "--" ""
       (Str.replace "," "."
          (Str.replace "€" ""
             (Str.replace "$" "" price_str)))).

(** The rate of line 29, [0.93]. *)
Definition USD_TO_EUR : float := of_decimal false 93 (-2).

(** The price to return for a cleaned string that parsed as [price]
    (lines 27 to 30). *)
Definition convert (price_str : string) (price : float) : float :=
  if Str.contains "$" price_str then round (mul price USD_TO_EUR) 2 else price.

(** One iteration of the loop of [get_price] (lines 12 to 38). *)
Definition get_price_attempt (skin_url : string) (attempt : Z) : M (flow (option float)) :=
  r <- try_except
         (response <- requests_get skin_url 10 ;;
          data <- response_json response ;;
          success <- py_get data "success" ;;
          lowest_price <- (if Json.truthy success then py_get data "lowest_price"
                           else ret Json.JNull) ;;
          if Json.truthy success && Json.truthy lowest_price then
            price_str <- as_str lowest_price ;;
            let clean := clean_price price_str in
            try_except
              (price <- float_of clean ;;
               ret (Return (Some (convert price_str price))))
              is_ValueError
              (fun _ => print (MsgInvalidFormat price_str) ;; ret (Return None))
          else
            print (MsgNoValidPrice (attempt + 1)) ;; ret Next)
         is_Exception
         (fun e => print (MsgFetchError (attempt + 1) e) ;; ret Next) ;;
  match r with
  | Return v => ret (Return v)
  | Next => sleep 2 ;; ret Next
  end.

(** The loop over [range(retries)], from [attempt] on, [n] iterations left,
    and the lines after it. *)
Fixpoint get_price_from (skin_url : string) (attempt : Z) (n : nat) : M (option float) :=
  match n with
  | O => print MsgFailedAfterRetries ;; ret None
  | S n' =>
      r <- get_price_attempt skin_url attempt ;;
      match r with
      | Return v => ret v
      | Next => get_price_from skin_url (attempt + 1) n'
      end
  end.

(** [get_price(skin_url, retries)] *)
Definition get_price (skin_url : string) (retries : Z) : M (option float) :=
  get_price_from skin_url 0 (Z.to_nat retries).

(** [send_ifttt_notification(skin_name, new_price, old_price)] *)
Definition send_ifttt_notification (cfg : config) (skin_name : string)
    (new_price old_price : float) : M unit :=
  let data := [("value1", skin_name);
               ("value2", to_str new_price +:+ " €");
               ("value3", to_str old_price +:+ " €")] in
  response <- requests_post (IFTTT_URL cfg) data ;;
  if status_code response =? 200 then print (MsgNotificationSent skin_name)
  else print (MsgIftttError (status_code response)).

(** [os.path.join(folder, name)] on a POSIX system. *)
Definition path_join (folder name : string) : string :=
  if Str.startswith "/" name then name
  else if String.eqb folder "" then name
  else if Str.startswith "/" (String.rev folder) then folder +:+ name
  else folder +:+ "/" +:+ name.

(** The log file of a skin (line 61). *)
Definition log_file (cfg : config) (skin_name : string) : string :=
  path_join (LOG_FOLDER cfg)
    (Str.replace " " "_" (Str.replace "|" "" skin_name) +:+ ".txt").

(** [n] in decimal, on [width] digits at least. *)
Definition pad (width : nat) (n : Z) : string :=
  zeros (width - String.length (dec_str n)) +:+ dec_str n.

(** [d.strftime("%Y-%m-%d %H:%M:%S")] *)
Definition strftime (d : datetime) : string :=
  pad 4 (year d) +:+ "-" +:+ pad 2 (month d) +:+ "-" +:+ pad 2 (day d) +:+ " " +:+
  pad 2 (hour d) +:+ ":" +:+ pad 2 (minute d) +:+ ":" +:+ pad 2 (second d).

(** The text that the check of line 73 looks for. *)
Definition price_tag (price : float) : string := to_str price +:+ " €".

(** The entry of line 74, without its line end. *)
Definition entry_text (old_price new_price : float) (timestamp : string) : string :=
  price_tag old_price +:+ " (" +:+ timestamp +:+ ") -> " +:+
  price_tag new_price +:+ " (" +:+ timestamp +:+ ")".

(** The last line of the log, stripped, or the empty string (lines 65 to 70). *)
Definition read_last_line (file_name : string) : M string :=
  there <- path_exists file_name ;;
  if there : bool then
    lines <- readlines file_name ;;
    match lines with
    | [] => ret EmptyString
    | _ => ret (Str.strip (List.last lines EmptyString))
    end
  else ret EmptyString.

(** The test of line 73. *)
Definition is_new_price (last_line : string) (new_price : float) : bool :=
  String.eqb last_line "" || negb (Str.contains (price_tag new_price) last_line).

(** [log_price_change(skin_name, old_price, new_price)] *)
Definition log_price_change (cfg : config) (skin_name : string)
    (old_price new_price : float) : M unit :=
  makedirs (LOG_FOLDER cfg) ;;
  let file_name := log_file cfg skin_name in
  d <- now ;;
  let timestamp := strftime d in
  last_line <- read_last_line file_name ;;
  if is_new_price last_line new_price then
    let entry := entry_text old_price new_price timestamp +:+ LF in
    append_file file_name entry ;;
    print (MsgLogged skin_name (Str.strip entry))
  else
    print (MsgNoChangeToLog skin_name).

(** [send_error_notification(error_message)] *)
Definition send_error_notification (cfg : config) (error_message : string) : M unit :=
  let data := [("value1", "Steam Price Alert Error"); ("value2", error_message)] in
  try_except
    (response <- requests_post (IFTTT_URL cfg) data ;;
     if status_code response =? 200 then print MsgErrorAlertSent
     else print (MsgErrorAlertFailed (status_code response)))
    is_Exception
    (fun e => print (MsgErrorAlertNotSent e)).

(** [check_price_change(old_price, new_price, threshold)]; [None] is
    Python's [None]. *)
Definition check_price_change (old_price new_price : option float) (threshold : float) : bool :=
  match old_price, new_price with
  | Some o, Some n => leb threshold (abs (sub n o))
  | _, _ => false
  end.

(** The default [threshold=10], which is also the one [main] passes. *)
Definition THRESHOLD : float := of_Z 10.

(** [if price:] on the result of [get_price]: [None] and zero are false. *)
Definition price_truthy (price : option float) : bool :=
  match price with
  | Some p => truthy p
  | None => false
  end.

(** The body of the first loop of [main] (lines 107 to 112), on the dict
    [base_prices]. *)
Definition init_item (base_prices : gmap string float) (item : string * string)
    : M (gmap string float) :=
  let '(skin_name, url) := item in
  price <- get_price url 3 ;;
  match price with
  | Some p =>
      if truthy p then
        print (MsgStartingAt skin_name p) ;; ret (<[skin_name := p]> base_prices)
      else
        print (MsgCouldNotFetch skin_name) ;; ret base_prices
  | None =>
      print (MsgCouldNotFetch skin_name) ;; ret base_prices
  end.

(** Lines 103 to 114. *)
Definition initialize (cfg : config) : M (gmap string float) :=
  print MsgFetchingInitial ;;
  base_prices <- for_each init_item (SKINS cfg) ∅ ;;
  print MsgMonitoring ;;
  ret base_prices.

(** Lines 125 to 138: what is done for a price that differs. *)
Definition on_change (cfg : config) (base_prices : gmap string float)
    (skin_name : string) (old_price current_price : float) : M (gmap string float) :=
  print (MsgChanged skin_name old_price current_price) ;;
  log_price_change cfg skin_name old_price current_price ;;
  (if check_price_change (Some old_price) (Some current_price) THRESHOLD then
     send_ifttt_notification cfg skin_name current_price old_price ;;
     print (MsgSignificant (abs (sub current_price old_price)))
   else
     print (MsgMinor (abs (sub current_price old_price)))) ;;
  ret (<[skin_name := current_price]> base_prices).

(** The body of the loop over the skins in the monitoring loop (lines 118
    to 140). *)
Definition monitor_item (cfg : config) (base_prices : gmap string float)
    (item : string * string) : M (gmap string float) :=
  let '(skin_name, url) := item in
  current_price <- get_price url 3 ;;
  match current_price with
  | None => print (MsgFailedToFetch skin_name) ;; ret base_prices
  | Some current =>
      let old_price := default current (base_prices !! skin_name) in
      base_prices' <- (if neb current old_price
                       then on_change cfg base_prices skin_name old_price current
                       else ret base_prices) ;;
      sleep (CHECK_INTERVAL cfg) ;;
      ret base_prices'
  end.

(** One pass of the [while True] loop of [main]. *)
Definition monitor_cycle (cfg : config) (base_prices : gmap string float)
    : M (gmap string float) :=
  for_each (monitor_item cfg) (SKINS cfg) base_prices.

(** [cycles] passes of the loop, which has no exit of its own. *)
Fixpoint monitor (cfg : config) (cycles : nat) (base_prices : gmap string float)
    : M (gmap string float) :=
  match cycles with
  | O => ret base_prices
  | S n => base_prices' <- monitor_cycle cfg base_prices ;; monitor cfg n base_prices'
  end.

(** [main()], cut after [cycles] passes of its loop. *)
Definition main (cfg : config) (cycles : nat) : M (gmap string float) :=
  base_prices <- initialize cfg ;;
  monitor cfg cycles base_prices.

End Alert.

(** ** What the properties speak about *)
Module Observe.

Import PyFloat World Alert.

(** The price string of a response that signals success and carries a
    non-empty string under [lowest_price]. Every other outcome of a request
    (an exception of [requests], a body that is no JSON object, a false or
    missing [success], a missing, empty or non-string [lowest_price]) makes
    the attempt fail. *)
Definition price_string (o : outcome) : option string :=
  match o with
  | Responds r =>
      match body r with
      | Some (Json.JObject items) =>
          if Json.truthy (default Json.JNull (Json.lookup "success" items)) then
            match Json.lookup "lowest_price" items with
            | Some (Json.JString s) => if String.eqb s "" then None else Some s
            | _ => None
            end
          else None
      | _ => None
      end
  | Raises _ => None
  end.

(** What [read_last_line] finds in the files [fs]. *)
Definition stored_last_line (fs : gmap string string) (file_name : string) : string :=
  match fs !! file_name with
  | Some text =>
      match lines_of text with
      | [] => EmptyString
      | lines => Str.strip (List.last lines EmptyString)
      end
  | None => EmptyString
  end.

(** The webhook calls among the events. *)
Fixpoint posts_of (t : list event) : list (string * list (string * string)) :=
  match t with
  | EvPost url data :: t' => (url, data) :: posts_of t'
  | _ :: t' => posts_of t'
  | [] => []
  end.

(** The writes to the logs among the events. *)
Fixpoint appends_of (t : list event) : list (string * string) :=
  match t with
  | EvAppend path text :: t' => (path, text) :: appends_of t'
  | _ :: t' => appends_of t'
  | [] => []
  end.

(** An event that is neither a webhook call nor a write to a log. *)
Definition quiet (e : event) : bool :=
  match e with
  | EvPost _ _ | EvAppend _ _ => false
  | _ => true
  end.

(** The new prices of the entries that a sequence of calls
    [log_price_change(skin_name, old_price, new_price)] writes, in order. *)
Fixpoint written (cfg : config) (skin_name : string) (calls : list (float * float))
    (w : world) : list float :=
  match calls with
  | [] => []
  | (old_price, new_price) :: rest =>
      let w' := snd (log_price_change cfg skin_name old_price new_price w) in
      (if (length (appends_of (trace w')) =? length (appends_of (trace w)))%nat
       then [] else [new_price]) ++ written cfg skin_name rest w'
  end.

(** No two neighbours of the list are the same price. *)
Fixpoint adjacent_distinct (l : list float) : Prop :=
  match l with
  | x :: (y :: _) as l' => x <> y /\ adjacent_distinct l'
  | _ => True
  end.

(** The world after [log_price_change] wrote its entry. *)
Definition logged (cfg : config) (skin_name : string) (old_price new_price : float)
    (w : world) : world :=
  let file_name := log_file cfg skin_name in
  let entry := entry_text old_price new_price (strftime (clock w (n_now w))) +:+ LF in
  emit (EvPrint (MsgLogged skin_name (Str.strip entry)))
    (set_files (<[file_name := default "" (files w !! file_name) +:+ entry]> (files w))
       (emit (EvAppend file_name entry) (count_now w))).

(** [w'] comes from [w] by requests to the price source, sleeping and
    printing only: the scripts, the clock, the files and the webhook are as
    they were. *)
Definition fetch_only (w w' : world) : Prop :=
  get_script w' = get_script w /\ post_script w' = post_script w /\
  clock w' = clock w /\ n_post w' = n_post w /\ n_now w' = n_now w /\
  files w' = files w /\
  exists evs, trace w' = trace w ++ evs /\ forallb quiet evs = true.

(** What [get_price] returns on the price string [s]. *)
Definition price_of_string (s : string) : option float :=
  match of_str (clean_price s) with
  | Some v => Some (convert s v)
  | None => None
  end.

(** The changes that the monitoring loop announced, among the events. *)
Fixpoint changes_of (t : list event) : list (string * float * float) :=
  match t with
  | EvPrint (MsgChanged skin_name old_price current_price) :: t' =>
      (skin_name, old_price, current_price) :: changes_of t'
  | _ :: t' => changes_of t'
  | [] => []
  end.

(** The payload of the price alert (lines 46 to 50). *)
Definition alert_payload (skin_name : string) (new_price old_price : float)
    : list (string * string) :=
  [("value1", skin_name); ("value2", price_tag new_price); ("value3", price_tag old_price)].

End Observe.

(** ** Concrete runs *)
Module Scenario.

Import PyFloat World Alert.

(** A response [{success: true, lowest_price: s}]. *)
Definition price_response (s : string) : outcome :=
  Responds {| status_code := 200;
              body := Some (Json.JObject [("success", Json.JBool true);
                                          ("lowest_price", Json.JString s)]) |}.

(** The response [{success: false}]. *)
Definition failure_response : outcome :=
  Responds {| status_code := 200;
              body := Some (Json.JObject [("success", Json.JBool false)]) |}.

(** An answer of the webhook with the given status. *)
Definition webhook_response (status : Z) : outcome :=
  Responds {| status_code := status; body := None |}.

(** The requests meet the outcomes of the list in turn, and time out after. *)
Definition script (l : list outcome) (n : nat) : outcome := nth n l (Raises Timeout).

(** A clock that advances by one second at each reading. *)
Definition ticking (n : nat) : datetime :=
  {| year := 2024; month := 3; day := 7; hour := 9; minute := 5; second := Z.of_nat n |}.

(** The world at the start of a run, with the given files. *)
Definition start (gets posts : list outcome) (fs : gmap string string) : world :=
  {| get_script := script gets; post_script := script posts; clock := ticking;
     n_get := 0; n_post := 0; n_now := 0; files := fs; trace := [] |}.

(** One monitored skin. *)
Definition cfg : config :=
  {| SKINS := [("AK-47 | Redline", "https://steam.example/ak47")];
     IFTTT_URL := "https://ifttt.example/hook";
     LOG_FOLDER := "logs";
     CHECK_INTERVAL := 60 |}.

Definition skin : string := "AK-47 | Redline".
Definition url : string := "https://steam.example/ak47".
Definition log : string := "logs/AK-47__Redline.txt".

(** The floats of the decimal literals used below. *)
Definition lit (m : Z) (e10 : Z) : float := of_decimal false m e10.

(** The entry that the ticking clock stamps at its [n]-th reading. *)
Definition entry_at (old_price new_price : float) (n : nat) : string :=
  entry_text old_price new_price (strftime (ticking n)) +:+ LF.

(** A run of [main]: the price goes 100, 110, 100, 10, and the webhook
    answers 200 each time. *)
Definition back_and_forth : world :=
  start [price_response "100,00€"; price_response "110,00€";
         price_response "100,00€"; price_response "10€"]
        [webhook_response 200; webhook_response 200; webhook_response 200] ∅.

(** A run of [main]: the first fetch fails three times, then the price is
    5, then 20. *)
Definition late_start : world :=
  start [failure_response; failure_response; failure_response;
         price_response "5,00€"; price_response "20,00€"] [] ∅.

End Scenario.

(** ** What a run leaves in place *)
Module Frame.

Import PyFloat World Alert.

(** Every file of [fs] is still there in [fs'], with text added at its end
    at most. *)
Definition grows (fs fs' : gmap string string) : Prop :=
  forall path text,
    fs !! path = Some text -> exists more, fs' !! path = Some (text +:+ more).

(** The log files of the configured skins. *)
Definition log_files (cfg : config) : list string :=
  map (fun item : string * string => log_file cfg (fst item)) (SKINS cfg).

(** [w'] comes from [w] by a part of a run: what is scripted for the
    requests and the clock is as it was, the files have grown at most, no
    file outside [paths] has changed, and at most [k] GETs were made. *)
Definition run_step (paths : list string) (k : nat) (w w' : world) : Prop :=
  get_script w' = get_script w /\ post_script w' = post_script w /\
  clock w' = clock w /\
  grows (files w) (files w') /\
  (forall path, ~ In path paths -> files w' !! path = files w !! path) /\
  (n_get w <= n_get w' <= n_get w + k)%nat.

(** The last event so far. *)
Definition last_event (w : world) : option event := List.last (map Some (trace w)) None.

(** Neither a pipe nor a space. *)
Definition name_char (c : ascii) : bool :=
  negb (Ascii.eqb c "|") && negb (Ascii.eqb c " ").

(** [s.replace(c, new)] for a single character [c], said character by
    character. *)
Fixpoint subst_char (c : ascii) (new : string) (s : string) : string :=
  match s with
  | String a r => (if Ascii.eqb c a then new else String a "") +:+ subst_char c new r
  | EmptyString => EmptyString
  end.

(** What line 61 makes of the name of a skin, said character by character:
    a pipe is dropped, a space becomes an underscore, and every other
    character is kept. *)
Fixpoint file_stem (s : string) : string :=
  match s with
  | String c r =>
      if Ascii.eqb c "|" then file_stem r
      else String (if Ascii.eqb c " " then "_"%char else c) (file_stem r)
  | EmptyString => EmptyString
  end.

(** A character of ASCII. On a text of such characters [Str.strip] and
    [of_str] are Python's [strip] and [float]: the white space and the
    digits that they do not know lie outside ASCII. *)
Definition is_ascii (c : ascii) : bool := (N_of_ascii c <? 128)%N.

(** Neither a dollar sign nor a comma. *)
Definition number_char (c : ascii) : bool :=
  negb (Ascii.eqb c "$") && negb (Ascii.eqb c ",").

(** The first and the last character of a text, if any. *)
Definition first_char (s : string) : option ascii :=
  match s with
  | String c _ => Some c
  | EmptyString => None
  end.

Fixpoint last_char (s : string) : option ascii :=
  match s with
  | String c EmptyString => Some c
  | String _ r => last_char r
  | EmptyString => None
  end.

(** [s] starts (ends) with no white space. *)
Definition trimmed (s : string) : Prop :=
  (forall c, first_char s = Some c -> Str.is_space c = false) /\
  (forall c, last_char s = Some c -> Str.is_space c = false).

End Frame.

(** ** The supervisor: lines 142 to 151 *)
Module Supervisor.

Import PyFloat World Alert.
Local Open Scope alert_scope.

(** A byte that continues a character of a UTF-8 text. *)
Definition is_continuation (c : ascii) : bool :=
  let k := N_of_ascii c in ((128 <=? k) && (k <=? 191))%N.

(** The number of characters of a UTF-8 text. *)
Fixpoint char_count (s : string) : nat :=
  match s with
  | String c r => if is_continuation c then char_count r else S (char_count r)
  | EmptyString => O
  end.

(** [s[:n]], the first [n] characters of a UTF-8 text. *)
Fixpoint take_chars (n : nat) (s : string) : string :=
  match s with
  | String c r =>
      if is_continuation c then String c (take_chars n r)
      else match n with
           | S n' => String c (take_chars n' r)
           | O => EmptyString
           end
  | EmptyString => EmptyString
  end.

(** The two lines that the supervisor prints. They are returned, in order,
    rather than recorded among the events of the world. *)
Inductive line : Type :=
| LineCrashed (error_text : string)
| LineRestarting.

(** One turn of the loop of lines 143 to 151. [describe e] is the text
    [f"{type(e).__name__}: {e}\n{traceback.format_exc()}"], which the
    interpreter makes. [main] is cut after [cycles] passes. *)
Definition supervise_once (cfg : config) (cycles : nat) (describe : exn -> string)
    : M (list line) :=
  try_except
    (main cfg cycles ;; ret [])
    is_Exception
    (fun e =>
       let error_text := describe e in
       send_error_notification cfg (take_chars 2000 error_text) ;;
       sleep 60 ;;
       ret [LineCrashed error_text; LineRestarting]).

(** [rounds] turns of the loop. *)
Fixpoint supervise (cfg : config) (cycles : nat) (describe : exn -> string)
    (rounds : nat) : M (list line) :=
  match rounds with
  | O => ret []
  | S n =>
      l <- supervise_once cfg cycles describe ;;
      l' <- supervise cfg cycles describe n ;;
      ret (l ++ l')
  end.

End Supervisor.

(** ** More concrete runs *)
Module Runs.

Import PyFloat World Alert.

(** The price goes 100, then 112, and the webhook cannot be reached. *)
Definition webhook_down : world :=
  Scenario.start [Scenario.price_response "100,00€"; Scenario.price_response "112,00€"] [] ∅.

(** A text for an exception, in place of the interpreter's. *)
Definition describe (e : exn) : string :=
  match e with
  | ConnectionError => "ConnectionError: webhook unreachable"
  | Timeout => "Timeout: webhook timed out"
  | JSONDecodeError => "JSONDecodeError"
  | AttributeError => "AttributeError"
  | ValueError => "ValueError"
  end.

End Runs.

(** * Properties *)

Import PyFloat World Alert Observe.
Local Open Scope alert_scope.

(** ** Subtraction and absolute value *)

Lemma abs_binary_round_aux (s s' : bool) (m e : Z) (l : location) :
  SFabs (binary_round_aux prec emax s m e l) = SFabs (binary_round_aux prec emax s' m e l).
Proof.
  unfold binary_round_aux.
  destruct (shr_fexp prec emax m e l) as [mrs e1].
  destruct (shr_fexp prec emax _ e1 loc_Exact) as [mrs' e2].
  destruct (shr_m mrs'); try reflexivity.
  destruct (e2 <=? emax - prec); reflexivity.
Qed.

Lemma abs_binary_normalize_opp (m e : Z) :
  SFabs (binary_normalize prec emax (- m) e false) = SFabs (binary_normalize prec emax m e false).
Proof.
  destruct m as [|p|p]; simpl; try reflexivity;
    unfold binary_round;
    destruct (shl_align p e _) as [mz ez]; apply abs_binary_round_aux.
Qed.

Lemma abs_sub_sym (a b : float) : abs (sub a b) = abs (sub b a).
Proof.
  unfold abs, sub.
  destruct a as [sa|sa| |sa ma ea], b as [sb|sb| |sb mb eb]; simpl;
    try reflexivity; try (destruct sa, sb; reflexivity).
  rewrite (Z.min_comm eb ea).
  rewrite <- abs_binary_normalize_opp. f_equal. f_equal. lia.
Qed.

(** C5: [check_price_change] is symmetric in its two prices, compares the
    absolute difference of two available prices with the threshold, and is
    false as soon as one price is [None]. *)
Theorem check_price_change_spec :
  (forall (a b : option float) (t : float),
      check_price_change a b t = check_price_change b a t) /\
  (forall (a b t : float),
      check_price_change (Some a) (Some b) t = leb t (abs (sub a b))) /\
  (forall (p : option float) (t : float),
      check_price_change None p t = false /\ check_price_change p None t = false).
Proof.
  split; [|split].
  - intros [a|] [b|] t; simpl; try reflexivity.
    now rewrite abs_sub_sym.
  - intros a b t. simpl. now rewrite abs_sub_sym.
  - intros [p|] t; split; reflexivity.
Qed.

(** ** Strings *)

Lemma str_app_cons (c : ascii) (a b : string) : String c a +:+ b = String c (a +:+ b).
Proof. reflexivity. Qed.

Lemma str_app_nil_l (s : string) : "" +:+ s = s.
Proof. reflexivity. Qed.

Lemma str_app_nil_r (s : string) : s +:+ "" = s.
Proof. induction s as [|c s IH]; [reflexivity|]. now rewrite ?str_app_cons, IH. Qed.

Lemma str_app_assoc (a b c : string) : (a +:+ b) +:+ c = a +:+ b +:+ c.
Proof. induction a as [|x a IH]; [reflexivity|]. now rewrite ?str_app_cons, IH. Qed.

Lemma all_app (P : ascii -> bool) (a b : string) :
  Str.all P (a +:+ b) = Str.all P a && Str.all P b.
Proof.
  induction a as [|x a IH]; [reflexivity|].
  rewrite ?str_app_cons. simpl. now rewrite IH, andb_assoc.
Qed.

Lemma blank_app (a b : string) : Str.blank (a +:+ b) = Str.blank a && Str.blank b.
Proof. apply all_app. Qed.

Lemma lstrip_app (a b : string) :
  Str.blank a = false -> Str.lstrip (a +:+ b) = Str.lstrip a +:+ b.
Proof.
  induction a as [|x a IH]; [discriminate|].
  unfold Str.blank. simpl. rewrite ?str_app_cons. simpl.
  destruct (Str.is_space x); [apply IH | reflexivity].
Qed.

Lemma rstrip_blank (s : string) : Str.blank s = true -> Str.rstrip s = "".
Proof.
  induction s as [|x s IH]; [reflexivity|].
  unfold Str.blank. simpl. intros [Hx Hs]%andb_prop.
  now rewrite (IH Hs), Hx.
Qed.

Lemma rstrip_nonblank (s : string) : Str.blank s = false -> Str.rstrip s <> "".
Proof.
  induction s as [|x s IH]; [discriminate|].
  unfold Str.blank. simpl. intros H.
  destruct (Str.rstrip s) eqn:E; [|discriminate].
  destruct (Str.is_space x) eqn:Hx; [|discriminate].
  exfalso. apply IH; [|reflexivity]. exact H.
Qed.

Lemma rstrip_app (a b : string) :
  Str.blank b = false -> Str.rstrip (a +:+ b) = a +:+ Str.rstrip b.
Proof.
  intros Hb. induction a as [|x a IH]; [reflexivity|].
  rewrite ?str_app_cons. simpl. rewrite IH.
  destruct (a +:+ Str.rstrip b) eqn:E; [|reflexivity].
  exfalso. apply (rstrip_nonblank b Hb).
  destruct a; [exact E | discriminate].
Qed.

Lemma blank_rstrip (s : string) : Str.blank (Str.rstrip s) = Str.blank s.
Proof.
  induction s as [|x s IH]; [reflexivity|].
  unfold Str.blank in *. simpl.
  destruct (Str.rstrip s) eqn:E.
  - simpl in IH. rewrite <- IH. destruct (Str.is_space x) eqn:Hx; simpl; now rewrite ?Hx.
  - simpl. now rewrite <- IH.
Qed.

Lemma strip_middle (a m b : string) :
  Str.blank a = false -> Str.blank b = false ->
  Str.strip (a +:+ m +:+ b) = Str.lstrip a +:+ m +:+ Str.rstrip b.
Proof.
  intros Ha Hb. unfold Str.strip.
  rewrite rstrip_app by (rewrite blank_app, Hb; apply andb_false_r).
  rewrite rstrip_app by exact Hb.
  now rewrite lstrip_app.
Qed.

Lemma startswith_app (p s : string) : Str.startswith p (p +:+ s) = true.
Proof.
  induction p as [|x p IH]; [reflexivity|].
  rewrite ?str_app_cons. simpl. now rewrite Ascii.eqb_refl, IH.
Qed.

Lemma contains_app_r (p a s : string) :
  Str.contains p s = true -> Str.contains p (a +:+ s) = true.
Proof.
  intros H. induction a as [|x a IH]; [exact H|].
  rewrite ?str_app_cons. simpl. rewrite IH. apply orb_true_r.
Qed.

Lemma contains_middle (p a b : string) : Str.contains p (a +:+ p +:+ b) = true.
Proof.
  apply contains_app_r.
  destruct (p +:+ b) eqn:E; simpl; rewrite <- E, startswith_app; reflexivity.
Qed.

(** ** Texts without a line end *)

Lemma one_line_app (a b : string) :
  Str.one_line (a +:+ b) = Str.one_line a && Str.one_line b.
Proof. apply all_app. Qed.

Lemma all_uint (P : ascii -> bool) (d : Decimal.uint) :
  (forall c, In c (list_ascii_of_string "0123456789") -> P c = true) ->
  Str.all P (NilEmpty.string_of_uint d) = true.
Proof.
  intros HP. induction d; simpl; [reflexivity| rewrite IHd, HP; [reflexivity | simpl; tauto] ..].
Qed.

Lemma all_dec_str (P : ascii -> bool) (n : Z) :
  (forall c, In c (list_ascii_of_string "0123456789") -> P c = true) ->
  Str.all P (dec_str n) = true.
Proof.
  intros HP. unfold dec_str, NilZero.string_of_uint.
  destruct (N.to_uint (Z.to_N n)) eqn:E; rewrite <- ?E; try apply all_uint; try exact HP.
  simpl. rewrite HP; [reflexivity | simpl; tauto].
Qed.

Lemma one_line_dec_str (n : Z) : Str.one_line (dec_str n) = true.
Proof.
  apply all_dec_str. intros c Hc. simpl in Hc.
  repeat (destruct Hc as [<-|Hc]; [reflexivity|]). destruct Hc.
Qed.

Lemma all_zeros (P : ascii -> bool) (n : nat) :
  P "0"%char = true -> Str.all P (zeros n) = true.
Proof. intros H. induction n; simpl; [reflexivity | now rewrite H, IHn]. Qed.

Lemma all_take (P : ascii -> bool) (n : nat) (s : string) :
  Str.all P s = true -> Str.all P (take n s) = true.
Proof.
  revert s. induction n; intros [|c s]; simpl; try reflexivity.
  intros [Hc Hs]%andb_prop. now rewrite Hc, IHn.
Qed.

Lemma all_drop (P : ascii -> bool) (n : nat) (s : string) :
  Str.all P s = true -> Str.all P (Str.drop n s) = true.
Proof.
  revert s. induction n; intros [|c s]; simpl; try reflexivity; try easy.
  intros [Hc Hs]%andb_prop. now apply IHn.
Qed.

Lemma all_strip_zeros (P : ascii -> bool) (s : string) :
  Str.all P s = true -> Str.all P (strip_zeros s) = true.
Proof.
  induction s as [|c s IH]; simpl; [reflexivity|].
  intros [Hc Hs]%andb_prop. specialize (IH Hs).
  destruct (strip_zeros s); [destruct (Ascii.eqb c "0"); simpl; now rewrite ?Hc|].
  simpl in *. now rewrite Hc, IH.
Qed.

Lemma one_line_zeros (n : nat) : Str.one_line (zeros n) = true.
Proof. now apply all_zeros. Qed.

Lemma all_impl (P Q : ascii -> bool) (s : string) :
  (forall c, P c = true -> Q c = true) -> Str.all P s = true -> Str.all Q s = true.
Proof.
  intros H. induction s as [|c s IH]; [reflexivity|].
  simpl. intros [Hc Hs]%andb_prop. now rewrite (H c Hc), IH.
Qed.

Lemma float_char_in (c : ascii) :
  In c (list_ascii_of_string float_chars) -> float_char c = true.
Proof.
  intros H. simpl in H.
  repeat (destruct H as [<-|H]; [reflexivity|]). destruct H.
Qed.

Lemma float_char_elim (Q : ascii -> bool) :
  Str.all Q float_chars = true -> forall c, float_char c = true -> Q c = true.
Proof.
  intros H c Hc. unfold float_char in Hc.
  apply existsb_exists in Hc as (x & Hx & ->%Ascii.eqb_eq).
  simpl in H. repeat (apply andb_prop in H as [? H]).
  simpl in Hx. repeat (destruct Hx as [<-|Hx]; [assumption|]). destruct Hx.
Qed.

Lemma float_char_dec_str (n : Z) : Str.all float_char (dec_str n) = true.
Proof.
  apply all_dec_str. intros c Hc. apply float_char_in.
  simpl in *. tauto.
Qed.

Lemma float_char_exp_str (e : Z) : Str.all float_char (exp_str e) = true.
Proof.
  unfold exp_str. rewrite !all_app, float_char_dec_str.
  destruct (e <? 0), (Z.abs e <? 10); reflexivity.
Qed.

Lemma float_char_format_repr (ds : string) (dp : Z) :
  Str.all float_char ds = true -> Str.all float_char (format_repr ds dp) = true.
Proof.
  intros H. unfold format_repr.
  destruct ((dp <=? -4) || (16 <? dp)).
  - destruct ds as [|d [|d' r]].
    + now rewrite !all_app, float_char_exp_str.
    + now rewrite !all_app, float_char_exp_str, H.
    + rewrite !all_app, float_char_exp_str, andb_true_r.
      simpl in *. apply andb_prop in H as [-> H]. exact H.
  - destruct (dp <=? 0).
    + now rewrite !all_app, H, all_zeros.
    + destruct (Z.leb _ dp).
      * now rewrite !all_app, H, all_zeros.
      * rewrite !all_app. now rewrite all_take, all_drop.
Qed.

Lemma float_char_to_str (x : float) : Str.all float_char (to_str x) = true.
Proof.
  destruct x as [s|s| |s m e]; try (destruct s; reflexivity); [reflexivity|].
  unfold to_str.
  match goal with
  | |- context [shortest ?f ?n ?x ?p ?q ?E] => destruct (shortest f n x p q E) as [d a]
  end.
  rewrite all_app, float_char_format_repr.
  - destruct s; reflexivity.
  - apply all_strip_zeros, float_char_dec_str.
Qed.

Lemma one_line_to_str (x : float) : Str.one_line (to_str x) = true.
Proof.
  apply (all_impl float_char); [|apply float_char_to_str].
  now apply float_char_elim.
Qed.

(** The text of a float has no white space. *)
Lemma no_space_to_str (x : float) :
  Str.all (fun c => negb (Str.is_space c)) (to_str x) = true.
Proof.
  apply (all_impl float_char); [|apply float_char_to_str].
  now apply float_char_elim.
Qed.

Lemma app_nonempty_r (a b : string) : b <> "" -> a +:+ b <> "".
Proof. destruct a; [now rewrite str_app_nil_l | discriminate]. Qed.

Lemma format_repr_nonempty (ds : string) (dp : Z) : format_repr ds dp <> "".
Proof.
  unfold format_repr.
  destruct ((dp <=? -4) || (16 <? dp)).
  - destruct ds as [|d [|d' r]]; try discriminate.
  - destruct (dp <=? 0); [discriminate|].
    destruct (Z.leb _ dp).
    + apply app_nonempty_r, app_nonempty_r. discriminate.
    + apply app_nonempty_r. rewrite str_app_cons. discriminate.
Qed.

(** The text of a float starts with a character that is no white space. *)
Lemma to_str_head (x : float) :
  exists c s, to_str x = String c s /\ Str.is_space c = false.
Proof.
  pose proof (no_space_to_str x) as H.
  assert (Hne : to_str x <> "").
  { destruct x as [s|s| |s m e]; try (destruct s; discriminate); [discriminate|].
    unfold to_str.
    match goal with
    | |- context [shortest ?f ?n ?x ?p ?q ?E] => destruct (shortest f n x p q E) as [d a]
    end.
    apply app_nonempty_r, format_repr_nonempty. }
  destruct (to_str x) as [|c s]; [congruence|].
  exists c, s. split; [reflexivity|].
  simpl in H. apply andb_prop in H as [H _]. now apply negb_true_iff.
Qed.

Lemma one_line_pad (width : nat) (n : Z) : Str.one_line (pad width n) = true.
Proof.
  unfold pad. now rewrite one_line_app, one_line_dec_str, one_line_zeros.
Qed.

Lemma one_line_strftime (d : datetime) : Str.one_line (strftime d) = true.
Proof. unfold strftime. now rewrite !one_line_app, !one_line_pad. Qed.

Lemma one_line_price_tag (p : float) : Str.one_line (price_tag p) = true.
Proof. unfold price_tag. now rewrite one_line_app, one_line_to_str. Qed.

Lemma one_line_entry_text (o n : float) (ts : string) :
  Str.one_line ts = true -> Str.one_line (entry_text o n ts) = true.
Proof.
  intros H. unfold entry_text.
  now rewrite !one_line_app, !one_line_price_tag, !H.
Qed.

(** ** The lines of a text *)

Lemma lines_of_nonempty (c : ascii) (s : string) : lines_of (String c s) <> [].
Proof.
  simpl. destruct (Ascii.eqb c _); [discriminate|].
  destruct (Ascii.eqb c _).
  - destruct s as [|c' s']; [discriminate|]. destruct (Ascii.eqb c' _); discriminate.
  - destruct (lines_of s); discriminate.
Qed.

Lemma app_LF_nonempty (a : string) : exists c s, a +:+ LF = String c s.
Proof. destruct a as [|c a]; [now exists (ascii_of_nat 10), ""|]. now exists c, (a +:+ LF). Qed.

Lemma not_newline (c : ascii) :
  negb (Str.is_newline c) = true ->
  Ascii.eqb c (ascii_of_nat 10) = false /\ Ascii.eqb c (ascii_of_nat 13) = false.
Proof.
  unfold Str.is_newline. intros H%negb_true_iff%orb_false_elim. exact H.
Qed.

Lemma lines_of_one_line (t r : string) :
  Str.one_line t = true ->
  lines_of (t +:+ String (ascii_of_nat 10) r) = (t +:+ LF) :: lines_of r.
Proof.
  induction t as [|a t IH]; intros H.
  - reflexivity.
  - unfold Str.one_line in H. simpl in H. apply andb_prop in H as [Ha Ht].
    apply not_newline in Ha as [H10 H13].
    rewrite ?str_app_cons. simpl lines_of at 1. rewrite H10, H13.
    unfold Str.one_line in IH. now rewrite (IH Ht).
Qed.

Lemma last_cons_nonempty {A : Type} (x d : A) (l : list A) :
  l <> [] -> List.last (x :: l) d = List.last l d.
Proof. destruct l; [congruence | reflexivity]. Qed.

(** After a line without line ends and its LF were appended to a text, the
    last line of the text ends with that line. *)
Lemma last_line_after_append (t : string) :
  Str.one_line t = true ->
  forall (n : nat) (c : string), (String.length c <= n)%nat ->
    exists pre, List.last (lines_of (c +:+ t +:+ LF)) "" = pre +:+ t +:+ LF.
Proof.
  intros Ht.
  assert (Hbase : lines_of (t +:+ LF) = [t +:+ LF]).
  { unfold LF at 1. now rewrite lines_of_one_line. }
  induction n as [|n IH]; intros c Hlen.
  - destruct c; [|simpl in Hlen; lia]. exists "".
    change ("" +:+ t +:+ LF) with (t +:+ LF). now rewrite Hbase.
  - destruct c as [|a c].
    { exists "". change ("" +:+ t +:+ LF) with (t +:+ LF). now rewrite Hbase. }
    simpl in Hlen.
    destruct (app_LF_nonempty (c +:+ t)) as (x & s & Hxs).
    rewrite str_app_assoc in Hxs.
    rewrite ?str_app_cons. simpl lines_of.
    destruct (Ascii.eqb a (ascii_of_nat 10)) eqn:H10.
    { rewrite last_cons_nonempty by (rewrite Hxs; apply lines_of_nonempty).
      apply IH. lia. }
    destruct (Ascii.eqb a (ascii_of_nat 13)) eqn:H13.
    { destruct c as [|b c].
      - rewrite str_app_nil_l. destruct t as [|b t].
        + exists "". reflexivity.
        + unfold Str.one_line in Ht. simpl in Ht.
          apply andb_prop in Ht as [Hb Ht']. apply not_newline in Hb as [Hb _].
          rewrite ?str_app_cons in *. rewrite Hb.
          exists "". rewrite last_cons_nonempty by apply lines_of_nonempty.
          now rewrite Hbase.
      - rewrite ?str_app_cons.
        destruct (Ascii.eqb b (ascii_of_nat 10)).
        + destruct (app_LF_nonempty (c +:+ t)) as (x' & s' & Hxs').
          rewrite str_app_assoc in Hxs'.
          rewrite last_cons_nonempty by (rewrite Hxs'; apply lines_of_nonempty).
          apply IH. simpl in Hlen. lia.
        + rewrite last_cons_nonempty by apply lines_of_nonempty.
          destruct (IH (String b c)) as [pre Hpre]; [lia|].
          exists pre. exact Hpre. }
    destruct (IH c) as [pre Hpre]; [lia|].
    destruct (lines_of (c +:+ t +:+ LF)) as [|l ls] eqn:El.
    { exfalso. rewrite Hxs in El. now apply lines_of_nonempty in El. }
    destruct ls as [|l2 ls].
    + simpl in Hpre. subst l. exists (String a pre). reflexivity.
    + exists pre. exact Hpre.
Qed.

(** ** The log *)

Lemma price_tag_nonempty (p : float) : exists c s, price_tag p = String c s.
Proof.
  unfold price_tag. destruct (to_str p) as [|c s]; [now eexists _, _|].
  now exists c, (s +:+ " €").
Qed.

(** The test of line 73, [not last_line or tag not in last_line], comes down
    to its second half: the tag is never empty. *)
Lemma is_new_price_contains (last_line : string) (p : float) :
  is_new_price last_line p = negb (Str.contains (price_tag p) last_line).
Proof.
  unfold is_new_price.
  destruct (String.eqb_spec last_line "") as [->|]; [|reflexivity].
  destruct (price_tag_nonempty p) as (c & s & ->). reflexivity.
Qed.

Lemma read_last_line_run (file_name : string) (w : world) :
  read_last_line file_name w = (Ok (stored_last_line (files w) file_name), w).
Proof.
  unfold read_last_line, stored_last_line, bind, path_exists, readlines, ret.
  destruct (files w !! file_name) as [text|] eqn:E; simpl; [|reflexivity].
  rewrite E. simpl. destruct (lines_of text); reflexivity.
Qed.

Lemma log_price_change_run (cfg : config) (skin_name : string) (o n : float) (w : world) :
  log_price_change cfg skin_name o n w =
  if Str.contains (price_tag n) (stored_last_line (files w) (log_file cfg skin_name))
  then (Ok tt, emit (EvPrint (MsgNoChangeToLog skin_name)) (count_now w))
  else (Ok tt, logged cfg skin_name o n w).
Proof.
  unfold log_price_change, bind, makedirs, ret, now.
  rewrite read_last_line_run. simpl files.
  rewrite is_new_price_contains.
  destruct (Str.contains _ _); reflexivity.
Qed.

Lemma appends_of_app (t1 t2 : list event) :
  appends_of (t1 ++ t2) = appends_of t1 ++ appends_of t2.
Proof.
  induction t1 as [|e t1 IH]; [reflexivity|].
  destruct e; simpl; now rewrite ?IH.
Qed.

Lemma posts_of_app (t1 t2 : list event) :
  posts_of (t1 ++ t2) = posts_of t1 ++ posts_of t2.
Proof.
  induction t1 as [|e t1 IH]; [reflexivity|].
  destruct e; simpl; now rewrite ?IH.
Qed.

Lemma contains_nonempty (c : ascii) (p s : string) :
  Str.contains (String c p) s = true -> s <> "".
Proof. intros H ->. discriminate. Qed.

(** Once an entry for [n] is the end of the log, the last line mentions [n]. *)
Lemma last_line_mentions (fs : gmap string string) (f c : string) (o n : float) (ts : string) :
  Str.one_line ts = true ->
  Str.contains (price_tag n)
    (stored_last_line (<[f := c +:+ entry_text o n ts +:+ LF]> fs) f) = true.
Proof.
  intros Hts. unfold stored_last_line. rewrite lookup_insert_eq.
  destruct (last_line_after_append (entry_text o n ts) (one_line_entry_text o n ts Hts)
              (String.length c) c (le_n _)) as [pre Hpre].
  rewrite <- str_app_assoc in Hpre |- *.
  destruct (app_LF_nonempty (c +:+ entry_text o n ts)) as (x & s & Hxs).
  destruct (lines_of _) as [|l ls] eqn:El.
  { rewrite Hxs in El. now apply lines_of_nonempty in El. }
  rewrite Hpre.
  replace (pre +:+ entry_text o n ts +:+ LF)
    with ((pre +:+ price_tag o +:+ " (" +:+ ts +:+ ") -> ") +:+ price_tag n +:+
          (" (" +:+ ts +:+ ")" +:+ LF))
    by (unfold entry_text; now rewrite !str_app_assoc).
  rewrite strip_middle.
  - apply contains_middle.
  - rewrite !blank_app. change (Str.blank ") -> ") with false.
    now rewrite !andb_false_r.
  - rewrite !blank_app. change (Str.blank " (") with false. reflexivity.
Qed.

Lemma files_logged (cfg : config) (skin_name : string) (o n : float) (w : world) :
  files (logged cfg skin_name o n w) =
  <[log_file cfg skin_name :=
      default "" (files w !! log_file cfg skin_name) +:+
      entry_text o n (strftime (clock w (n_now w))) +:+ LF]> (files w).
Proof. reflexivity. Qed.

Lemma appends_logged (cfg : config) (skin_name : string) (o n : float) (w : world) :
  appends_of (trace (logged cfg skin_name o n w)) =
  appends_of (trace w) ++
  [(log_file cfg skin_name, entry_text o n (strftime (clock w (n_now w))) +:+ LF)].
Proof.
  unfold logged. simpl. now rewrite !appends_of_app, app_nil_r.
Qed.

(** After any call for the new price [n], the last line mentions [n]. *)
Lemma mentions_after_call (cfg : config) (skin_name : string) (o n : float) (w : world) :
  Str.contains (price_tag n)
    (stored_last_line (files (snd (log_price_change cfg skin_name o n w)))
       (log_file cfg skin_name)) = true.
Proof.
  rewrite log_price_change_run.
  destruct (Str.contains (price_tag n)
              (stored_last_line (files w) (log_file cfg skin_name))) eqn:E; simpl snd.
  - exact E.
  - rewrite files_logged. apply last_line_mentions, one_line_strftime.
Qed.

(** A call for a price that the last line mentions leaves the files and the
    list of writes as they are. *)
Lemma call_suppressed (cfg : config) (skin_name : string) (o n : float) (w : world) :
  Str.contains (price_tag n) (stored_last_line (files w) (log_file cfg skin_name)) = true ->
  let w' := snd (log_price_change cfg skin_name o n w) in
  files w' = files w /\ appends_of (trace w') = appends_of (trace w).
Proof.
  intros H. rewrite log_price_change_run, H. simpl. split; [reflexivity|].
  now rewrite appends_of_app, app_nil_r.
Qed.

Lemma written_aux (cfg : config) (skin_name : string) (calls : list (float * float)) :
  forall (w : world),
    adjacent_distinct (written cfg skin_name calls w) /\
    forall p, Str.contains (price_tag p)
                (stored_last_line (files w) (log_file cfg skin_name)) = true ->
              match written cfg skin_name calls w with
              | q :: _ => p <> q
              | [] => True
              end.
Proof.
  induction calls as [|[o n] calls IH]; intros w; [now split|].
  cbn [written].
  pose proof (mentions_after_call cfg skin_name o n w) as Hn.
  set (w' := snd (log_price_change cfg skin_name o n w)) in *.
  destruct (IH w') as [Hadj Hhead].
  destruct (Str.contains (price_tag n)
              (stored_last_line (files w) (log_file cfg skin_name))) eqn:E.
  - destruct (call_suppressed cfg skin_name o n w E) as [Hf Ha].
    fold w' in Hf, Ha. rewrite Ha, Nat.eqb_refl. simpl.
    split; [exact Hadj|]. intros p Hp. apply Hhead. now rewrite Hf.
  - assert (Hw : w' = logged cfg skin_name o n w).
    { unfold w'. now rewrite log_price_change_run, E. }
    assert (Hlen : (length (appends_of (trace w')) =? length (appends_of (trace w)))%nat = false).
    { rewrite Hw, appends_logged, length_app. apply Nat.eqb_neq. simpl. lia. }
    rewrite Hlen. simpl. split.
    + specialize (Hhead n Hn). destruct (written cfg skin_name calls w'); [exact I|].
      split; [exact Hhead | exact Hadj].
    + intros p Hp ->. now rewrite Hp in E.
Qed.

(** C4: [log_price_change] writes its entry exactly when the last line of
    the log does not mention the formatted new price, and otherwise writes
    nothing; so no sequence of calls writes two entries in a row for the
    same new price. *)
Theorem log_price_change_no_repeat :
  (forall (cfg : config) (skin_name : string) (old_price new_price : float) (w : world),
      let file_name := log_file cfg skin_name in
      let entry := entry_text old_price new_price (strftime (clock w (n_now w))) +:+ LF in
      let w' := snd (log_price_change cfg skin_name old_price new_price w) in
      fst (log_price_change cfg skin_name old_price new_price w) = Ok tt /\
      if Str.contains (price_tag new_price) (stored_last_line (files w) file_name)
      then files w' = files w /\ appends_of (trace w') = appends_of (trace w)
      else files w' = <[file_name := default "" (files w !! file_name) +:+ entry]> (files w) /\
           appends_of (trace w') = appends_of (trace w) ++ [(file_name, entry)]) /\
  (forall (cfg : config) (skin_name : string) (calls : list (float * float)) (w : world),
      adjacent_distinct (written cfg skin_name calls w)) /\
  (forall (cfg : config) (skin_name : string) (o1 o2 new_price : float) (w : world),
      let w1 := snd (log_price_change cfg skin_name o1 new_price w) in
      let w2 := snd (log_price_change cfg skin_name o2 new_price w1) in
      files w2 = files w1 /\ appends_of (trace w2) = appends_of (trace w1)).
Proof.
  split; [|split].
  - intros cfg skin_name o n w file_name entry w'. subst w'.
    rewrite log_price_change_run. fold file_name.
    destruct (Str.contains _ _) eqn:E; simpl fst; simpl snd.
    + split; [reflexivity|]. split; [reflexivity|].
      simpl. now rewrite appends_of_app, app_nil_r.
    + split; [reflexivity|]. split; [apply files_logged | apply appends_logged].
  - intros cfg skin_name calls w. apply written_aux.
  - intros cfg skin_name o1 o2 n w w1 w2.
    apply call_suppressed, mentions_after_call.
Qed.

(** ** One attempt of [get_price] *)

(** The world after a GET. *)
Lemma requests_get_run (url : string) (timeout : Z) (w : world) :
  requests_get url timeout w =
  (match get_script w (n_get w) with
   | Raises e => Raise e
   | Responds r => Ok r
   end, count_get (emit (EvGet url timeout) w)).
Proof. unfold requests_get. destruct (get_script w (n_get w)); reflexivity. Qed.

(** An attempt that meets a price string returns: the converted price when
    the cleaned string is a number, [None] otherwise. *)
Lemma attempt_priced (url : string) (a : Z) (w : world) (s : string) :
  price_string (get_script w (n_get w)) = Some s ->
  get_price_attempt url a w =
  match of_str (clean_price s) with
  | Some v => (Ok (Return (Some (convert s v))), count_get (emit (EvGet url 10) w))
  | None => (Ok (Return None),
             emit (EvPrint (MsgInvalidFormat s)) (count_get (emit (EvGet url 10) w)))
  end.
Proof.
  intros H. unfold get_price_attempt, bind, try_except.
  rewrite requests_get_run.
  destruct (get_script w (n_get w)) as [e|[st bd]]; [discriminate|].
  unfold price_string in H. simpl in H.
  destruct bd as [[| | | | | |items]|]; try discriminate.
  unfold response_json, py_get, ret. simpl.
  destruct (Json.truthy (default Json.JNull (Json.lookup "success" items))); [|discriminate].
  destruct (Json.lookup "lowest_price" items) as [[| | | |s'| |]|]; try discriminate.
  simpl. destruct (String.eqb s' "") eqn:Es; [discriminate|].
  injection H as ->. simpl.
  unfold float_of. destruct (of_str (clean_price s)); reflexivity.
Qed.

(** Any other attempt prints a warning, sleeps two seconds and goes on. *)
Lemma attempt_failed (url : string) (a : Z) (w : world) :
  price_string (get_script w (n_get w)) = None ->
  exists m, get_price_attempt url a w =
            (Ok Next, emit (EvSleep 2) (emit (EvPrint m) (count_get (emit (EvGet url 10) w)))).
Proof.
  intros H. unfold get_price_attempt, bind, try_except.
  rewrite requests_get_run.
  destruct (get_script w (n_get w)) as [e|[st bd]]; [now eexists|].
  unfold price_string in H. simpl in H.
  destruct bd as [[| | | | | |items]|]; try (now eexists).
  unfold response_json, py_get, ret. simpl.
  destruct (Json.truthy (default Json.JNull (Json.lookup "success" items))); [|now eexists].
  destruct (Json.lookup "lowest_price" items) as [[|b|z|x|s'|l|l]|]; simpl;
    try (now eexists).
  - destruct b; now eexists.
  - destruct (z =? 0); now eexists.
  - destruct (truthy x); now eexists.
  - destruct (String.eqb s' ""); [now eexists | discriminate].
  - destruct l; now eexists.
  - destruct l; now eexists.
Qed.

(** ** The loop of [get_price] *)

Lemma fetch_only_refl (w : world) : fetch_only w w.
Proof.
  unfold fetch_only. repeat split. exists []. now rewrite app_nil_r.
Qed.

Lemma fetch_only_trans (w1 w2 w3 : world) :
  fetch_only w1 w2 -> fetch_only w2 w3 -> fetch_only w1 w3.
Proof.
  intros (Hg & Hp & Hc & Hnp & Hnn & Hf & evs & Ht & Hq)
         (Hg' & Hp' & Hc' & Hnp' & Hnn' & Hf' & evs' & Ht' & Hq').
  unfold fetch_only. repeat split; try congruence.
  exists (evs ++ evs'). split.
  - now rewrite Ht', Ht, app_assoc.
  - now rewrite forallb_app, Hq, Hq'.
Qed.

Lemma fetch_only_emit (e : event) (w : world) :
  quiet e = true -> fetch_only w (emit e w).
Proof.
  intros He. unfold fetch_only. repeat split. exists [e]. simpl. now rewrite He.
Qed.

Lemma fetch_only_count_get (w : world) : fetch_only w (count_get w).
Proof. unfold fetch_only. repeat split. exists []. simpl. now rewrite app_nil_r. Qed.

Lemma fetch_only_get (url : string) (w : world) (evs : list event) :
  forallb quiet evs = true ->
  fetch_only w (fold_left (fun w e => emit e w) evs (count_get (emit (EvGet url 10) w))).
Proof.
  intros H.
  assert (G : forall w0, fetch_only w0 (fold_left (fun w e => emit e w) evs w0)).
  { clear w. induction evs as [|e evs IH]; intros w0; [apply fetch_only_refl|].
    simpl in H. apply andb_prop in H as [He Hevs]. simpl.
    eapply fetch_only_trans; [apply fetch_only_emit, He | apply IH, Hevs]. }
  eapply fetch_only_trans; [|apply G].
  apply (fetch_only_trans _ (emit (EvGet url 10) w));
    [now apply fetch_only_emit | apply fetch_only_count_get].
Qed.

(** An attempt makes one GET, touches nothing else, and does not raise. *)
Lemma attempt_effect (url : string) (a : Z) (w : world) :
  let r := get_price_attempt url a w in
  fetch_only w (snd r) /\ n_get (snd r) = S (n_get w) /\ exists v, fst r = Ok v.
Proof.
  destruct (price_string (get_script w (n_get w))) as [s|] eqn:E.
  - rewrite (attempt_priced url a w s E).
    destruct (of_str (clean_price s)); simpl; (split; [|split; [reflexivity | now eexists]]).
    + apply (fetch_only_get url w []). reflexivity.
    + apply (fetch_only_get url w [EvPrint (MsgInvalidFormat s)]). reflexivity.
  - destruct (attempt_failed url a w E) as [m ->]. simpl.
    split; [|split; [reflexivity | now eexists]].
    apply (fetch_only_get url w [EvPrint m; EvSleep 2]). reflexivity.
Qed.

(** [get_price] makes at most [n] GETs, touches nothing else, and does not
    raise. *)
Lemma get_price_from_effect (url : string) (n : nat) :
  forall (a : Z) (w : world),
    let r := get_price_from url a n w in
    fetch_only w (snd r) /\ (n_get w <= n_get (snd r) <= n_get w + n)%nat /\
    exists v, fst r = Ok v.
Proof.
  induction n as [|n IH]; intros a w; cbv zeta.
  - simpl. split; [|split; [lia | now eexists]].
    apply fetch_only_emit. reflexivity.
  - cbn [get_price_from]. unfold bind.
    destruct (attempt_effect url a w) as (Hf & Hn & v & Hv).
    destruct (get_price_attempt url a w) as [r w1]. simpl in Hf, Hn, Hv. subst r.
    destruct v as [v|].
    + simpl. split; [exact Hf | split; [lia | now eexists]].
    + destruct (IH (a + 1) w1) as (Hf' & Hn' & Hv').
      split; [eapply fetch_only_trans; eassumption | split; [lia | exact Hv']].
Qed.

(** When the first [k] attempts fail and the next one meets the price string
    [s], [get_price] returns what [s] is worth, after [k + 1] GETs. *)
Lemma get_price_from_priced (url : string) (s : string) (k : nat) :
  forall (n : nat) (a : Z) (w : world),
    (k < n)%nat ->
    (forall i, (i < k)%nat -> price_string (get_script w (n_get w + i)) = None) ->
    price_string (get_script w (n_get w + k)) = Some s ->
    fst (get_price_from url a n w) = Ok (price_of_string s) /\
    n_get (snd (get_price_from url a n w)) = (n_get w + k + 1)%nat.
Proof.
  induction k as [|k IH]; intros n a w Hk Hfail Hs.
  - destruct n as [|n]; [lia|]. cbn [get_price_from]. unfold bind.
    rewrite Nat.add_0_r in Hs. rewrite (attempt_priced url a w s Hs).
    unfold price_of_string. destruct (of_str (clean_price s)); simpl; split; reflexivity || lia.
  - destruct n as [|n]; [lia|]. cbn [get_price_from]. unfold bind.
    assert (H0 : price_string (get_script w (n_get w)) = None).
    { rewrite <- (Nat.add_0_r (n_get w)). apply Hfail. lia. }
    destruct (attempt_failed url a w H0) as [m ->].
    set (w1 := emit (EvSleep 2) _).
    destruct (IH n (a + 1) w1) as [Hr Hn].
    + lia.
    + intros i Hi. simpl. rewrite <- Nat.add_succ_r. apply Hfail. lia.
    + simpl. now rewrite <- Nat.add_succ_r.
    + split; [exact Hr|]. rewrite Hn. simpl. lia.
Qed.

(** When all [n] attempts fail, [get_price] returns [None] after [n] GETs. *)
Lemma get_price_from_failed (url : string) (n : nat) :
  forall (a : Z) (w : world),
    (forall i, (i < n)%nat -> price_string (get_script w (n_get w + i)) = None) ->
    fst (get_price_from url a n w) = Ok None /\
    n_get (snd (get_price_from url a n w)) = (n_get w + n)%nat.
Proof.
  induction n as [|n IH]; intros a w Hfail.
  - simpl. split; [reflexivity | lia].
  - cbn [get_price_from]. unfold bind.
    assert (H0 : price_string (get_script w (n_get w)) = None).
    { rewrite <- (Nat.add_0_r (n_get w)). apply Hfail. lia. }
    destruct (attempt_failed url a w H0) as [m ->].
    set (w1 := emit (EvSleep 2) _).
    destruct (IH (a + 1) w1) as [Hr Hn].
    + intros i Hi. simpl. rewrite <- Nat.add_succ_r. apply Hfail. lia.
    + split; [exact Hr|]. rewrite Hn. simpl. lia.
Qed.

(** C1 (amended): when the attempts before it failed and an attempt meets a
    response whose price string contains a dollar sign and, once cleaned,
    parses as the number [v], [get_price] returns [round(v * 0.93, 2)]; for
    the response with the price string [$12.34] that is 11.48. *)
Theorem get_price_converts_dollars :
  (forall (url : string) (retries : Z) (w : world) (k : nat) (s : string) (v : float),
      (k < Z.to_nat retries)%nat ->
      (forall i, (i < k)%nat -> price_string (get_script w (n_get w + i)) = None) ->
      price_string (get_script w (n_get w + k)) = Some s ->
      Str.contains "$" s = true ->
      of_str (clean_price s) = Some v ->
      fst (get_price url retries w) = Ok (Some (round (mul v USD_TO_EUR) 2))) /\
  fst (get_price Scenario.url 3
         (Scenario.start [Scenario.price_response "$12.34"] [] ∅))
  = Ok (Some (Scenario.lit 1148 (-2))).
Proof.
  split.
  - intros url retries w k s v Hk Hfail Hs Hd Hv.
    unfold get_price.
    destruct (get_price_from_priced url s k (Z.to_nat retries) 0 w Hk Hfail Hs) as [-> _].
    unfold price_of_string, convert. now rewrite Hv, Hd.
  - vm_compute. reflexivity.
Qed.

(** The general part of C1 at the first attempt of the scenario. *)
Lemma get_price_converts_dollars_witness :
  fst (get_price Scenario.url 3
         (Scenario.start [Scenario.price_response "$12.34"] [] ∅))
  = Ok (Some (round (mul (Scenario.lit 1234 (-2)) USD_TO_EUR) 2)).
Proof.
  apply (proj1 get_price_converts_dollars Scenario.url 3 _ 0%nat "$12.34").
  - vm_compute. lia.
  - intros i Hi. lia.
  - reflexivity.
  - reflexivity.
  - vm_compute. reflexivity.
Defined.

(** C1 as stated fails: for the price string [$12.34] the fetched price is
    not 11.47 (12.34 * 0.93 is 11.4762, which rounds to 11.48). *)
Lemma get_price_12_34_is_not_11_47 :
  exists p : float,
    fst (get_price Scenario.url 3
           (Scenario.start [Scenario.price_response "$12.34"] [] ∅)) = Ok (Some p) /\
    eqb p (Scenario.lit 1147 (-2)) = false /\
    to_str p = "11.48".
Proof.
  exists (Scenario.lit 1148 (-2)). repeat split; vm_compute; reflexivity.
Qed.

(** C7: when every attempt fails, [get_price] returns [None] after exactly
    [retries] requests; and it never makes more than [retries] requests. *)
Theorem get_price_gives_up :
  (forall (url : string) (retries : Z) (w : world),
      0 <= retries ->
      (forall i, (i < Z.to_nat retries)%nat ->
                 price_string (get_script w (n_get w + i)) = None) ->
      fst (get_price url retries w) = Ok None /\
      Z.of_nat (n_get (snd (get_price url retries w))) = Z.of_nat (n_get w) + retries) /\
  (forall (url : string) (retries : Z) (w : world),
      Z.of_nat (n_get (snd (get_price url retries w)))
      <= Z.of_nat (n_get w) + Z.max 0 retries).
Proof.
  split.
  - intros url retries w Hr Hfail. unfold get_price.
    destruct (get_price_from_failed url (Z.to_nat retries) 0 w Hfail) as [-> ->].
    split; [reflexivity | lia].
  - intros url retries w. unfold get_price.
    destruct (get_price_from_effect url (Z.to_nat retries) 0 w) as (_ & Hn & _).
    lia.
Qed.

(** C7 on three responses [{success: false}]. *)
Lemma get_price_gives_up_witness :
  let w := Scenario.start
             [Scenario.failure_response; Scenario.failure_response;
              Scenario.failure_response; Scenario.price_response "5,00€"] [] ∅ in
  fst (get_price Scenario.url 3 w) = Ok None /\
  Z.of_nat (n_get (snd (get_price Scenario.url 3 w))) = Z.of_nat (n_get w) + 3.
Proof.
  apply (proj1 get_price_gives_up Scenario.url 3).
  - lia.
  - intros i Hi. change (Z.to_nat 3) with 3%nat in Hi.
    destruct i as [|[|[|i]]]; [reflexivity .. | lia].
Defined.

(** ** The monitoring loop *)

Lemma quiet_events (evs : list event) :
  forallb quiet evs = true -> posts_of evs = [] /\ appends_of evs = [].
Proof.
  induction evs as [|e evs IH]; [now split|].
  simpl. intros [He Hevs]%andb_prop. destruct e; try discriminate; now apply IH.
Qed.

Lemma fetch_only_posts (w w' : world) :
  fetch_only w w' ->
  posts_of (trace w') = posts_of (trace w) /\ appends_of (trace w') = appends_of (trace w).
Proof.
  intros (_ & _ & _ & _ & _ & _ & evs & -> & Hq).
  destruct (quiet_events evs Hq) as [Hp Ha].
  now rewrite posts_of_app, appends_of_app, Hp, Ha, !app_nil_r.
Qed.

(** [get_price] returns without raising, having made requests to the price
    source only. *)
Lemma get_price_effect (url : string) (retries : Z) (w : world) :
  exists v w', get_price url retries w = (Ok v, w') /\ fetch_only w w'.
Proof.
  unfold get_price.
  destruct (get_price_from_effect url (Z.to_nat retries) 0 w) as (Hf & _ & v & Hv).
  destruct (get_price_from url 0 (Z.to_nat retries) w) as [r w'].
  simpl in *. subst r. now exists v, w'.
Qed.

Lemma monitor_item_unavailable (cfg : config) (base_prices : gmap string float)
    (skin_name url : string) (w w1 : world) :
  get_price url 3 w = (Ok None, w1) ->
  monitor_item cfg base_prices (skin_name, url) w =
  (Ok base_prices, emit (EvPrint (MsgFailedToFetch skin_name)) w1).
Proof. intros H. unfold monitor_item, bind. now rewrite H. Qed.

(** C8: when [get_price] returns [None] for an item in the monitoring loop,
    the item is skipped: its last known price, the logs and the webhook are
    left alone, and the loop goes on with the next item. *)
Theorem unavailable_item_is_skipped
    (cfg : config) (base_prices : gmap string float) (skin_name url : string) (w : world) :
  fst (get_price url 3 w) = Ok None ->
  let r := monitor_item cfg base_prices (skin_name, url) w in
  fst r = Ok base_prices /\
  files (snd r) = files w /\
  appends_of (trace (snd r)) = appends_of (trace w) /\
  posts_of (trace (snd r)) = posts_of (trace w) /\
  n_post (snd r) = n_post w /\
  forall rest,
    for_each (monitor_item cfg) ((skin_name, url) :: rest) base_prices w =
    for_each (monitor_item cfg) rest base_prices (snd r).
Proof.
  intros H r.
  destruct (get_price_effect url 3 w) as (v & w1 & Hg & Hf).
  rewrite Hg in H. simpl in H. injection H as ->.
  pose proof (monitor_item_unavailable cfg base_prices skin_name url w w1 Hg) as Hm.
  destruct (fetch_only_posts w w1 Hf) as [Hp Ha].
  destruct Hf as (_ & _ & _ & Hnp & _ & Hfiles & _).
  subst r. split; [now rewrite Hm|]. split; [now rewrite Hm|].
  split; [rewrite Hm; cbn [snd trace emit]; now rewrite appends_of_app, Ha, app_nil_r|].
  split; [rewrite Hm; cbn [snd trace emit]; now rewrite posts_of_app, Hp, app_nil_r|].
  split; [now rewrite Hm|].
  intros rest. cbn [for_each]. unfold bind at 1. now rewrite Hm.
Qed.

(** C8 on three responses [{success: false}], with a baseline of 100. *)
Lemma unavailable_item_is_skipped_witness :
  let w := Scenario.start
             [Scenario.failure_response; Scenario.failure_response;
              Scenario.failure_response] [] ∅ in
  let base_prices : gmap string float := {[ Scenario.skin := Scenario.lit 100 0 ]} in
  let r := monitor_item Scenario.cfg base_prices (Scenario.skin, Scenario.url) w in
  fst r = Ok base_prices /\
  files (snd r) = files w /\
  appends_of (trace (snd r)) = appends_of (trace w) /\
  posts_of (trace (snd r)) = posts_of (trace w) /\
  n_post (snd r) = n_post w /\
  forall rest,
    for_each (monitor_item Scenario.cfg) ((Scenario.skin, Scenario.url) :: rest) base_prices w =
    for_each (monitor_item Scenario.cfg) rest base_prices (snd r).
Proof.
  apply (unavailable_item_is_skipped Scenario.cfg).
  vm_compute. reflexivity.
Defined.

(** ** What the log check lets through *)

Lemma lstrip_blank_app (a b : string) :
  Str.blank a = true -> Str.lstrip (a +:+ b) = Str.lstrip b.
Proof.
  induction a as [|x a IH]; [reflexivity|].
  unfold Str.blank. simpl. intros [Hx Ha]%andb_prop.
  rewrite ?str_app_cons. simpl. rewrite Hx. now apply IH.
Qed.

Lemma contains_prefix (p s : string) : Str.contains p (p +:+ s) = true.
Proof. apply (contains_middle p "" s). Qed.

(** Once an entry [o -> n] is the end of the log, the last line mentions
    the old price [o] as well. *)
Lemma last_line_mentions_old (fs : gmap string string) (f c : string) (o n : float) (ts : string) :
  Str.one_line ts = true ->
  Str.contains (price_tag o)
    (stored_last_line (<[f := c +:+ entry_text o n ts +:+ LF]> fs) f) = true.
Proof.
  intros Hts. unfold stored_last_line. rewrite lookup_insert_eq.
  destruct (last_line_after_append (entry_text o n ts) (one_line_entry_text o n ts Hts)
              (String.length c) c (le_n _)) as [pre Hpre].
  rewrite <- str_app_assoc in Hpre |- *.
  destruct (app_LF_nonempty (c +:+ entry_text o n ts)) as (x & s & Hxs).
  destruct (lines_of _) as [|l ls] eqn:El.
  { rewrite Hxs in El. now apply lines_of_nonempty in El. }
  rewrite Hpre.
  set (rest := " (" +:+ ts +:+ ") -> " +:+ price_tag n +:+ " (" +:+ ts +:+ ")" +:+ LF).
  replace (pre +:+ entry_text o n ts +:+ LF) with (pre +:+ price_tag o +:+ rest)
    by (unfold entry_text, rest; now rewrite !str_app_assoc).
  assert (Hrest : Str.blank rest = false).
  { unfold rest. rewrite !blank_app. change (Str.blank ") -> ") with false.
    now rewrite !andb_false_r. }
  destruct (Str.blank pre) eqn:Hb.
  - unfold Str.strip.
    rewrite rstrip_app by (rewrite blank_app, Hrest; apply andb_false_r).
    rewrite rstrip_app by exact Hrest.
    rewrite lstrip_blank_app by exact Hb.
    destruct (to_str_head o) as (h & t & Ho & Hh).
    unfold price_tag at 2. rewrite Ho, ?str_app_cons. simpl. rewrite Hh.
    rewrite <- ?str_app_cons, <- Ho. apply contains_prefix.
  - rewrite strip_middle by assumption. apply contains_middle.
Qed.

(** C9: [log_price_change] writes nothing as soon as the formatted new
    price occurs anywhere in the last line of the log: also when it is the
    old price of the last entry, and when it is the end of another price
    (10.0 in 110.0); so there are runs in which price changes go unlogged. *)
Theorem log_check_is_a_substring_test :
  (forall (cfg : config) (skin_name : string) (old_price new_price : float) (w : world),
      Str.contains (price_tag new_price)
        (stored_last_line (files w) (log_file cfg skin_name)) = true ->
      let w' := snd (log_price_change cfg skin_name old_price new_price w) in
      files w' = files w /\ appends_of (trace w') = appends_of (trace w)) /\
  (forall (cfg : config) (skin_name : string) (a b : float) (w : world),
      Str.contains (price_tag b)
        (stored_last_line (files w) (log_file cfg skin_name)) = false ->
      let w1 := snd (log_price_change cfg skin_name a b w) in
      let w2 := snd (log_price_change cfg skin_name b a w1) in
      length (appends_of (trace w1)) = S (length (appends_of (trace w))) /\
      files w2 = files w1 /\ appends_of (trace w2) = appends_of (trace w1)) /\
  (let w := Scenario.start [] []
              {[ Scenario.log := Scenario.entry_at (Scenario.lit 105 0) (Scenario.lit 110 0) 0 ]} in
   let w' := snd (log_price_change Scenario.cfg Scenario.skin
                    (Scenario.lit 110 0) (Scenario.lit 10 0) w) in
   Str.contains "10.0 €" "110.0 €" = true /\
   files w' = files w /\ appends_of (trace w') = []) /\
  (let r := main Scenario.cfg 3 Scenario.back_and_forth in
   fst r = Ok {[ Scenario.skin := Scenario.lit 10 0 ]} /\
   length (changes_of (trace (snd r))) = 3%nat /\
   appends_of (trace (snd r))
   = [(Scenario.log, Scenario.entry_at (Scenario.lit 100 0) (Scenario.lit 110 0) 0)]).
Proof.
  split; [|split; [|split]].
  - intros cfg skin_name o n w H. now apply call_suppressed.
  - intros cfg skin_name a b w H w1 w2.
    assert (Hw1 : w1 = logged cfg skin_name a b w).
    { unfold w1. now rewrite log_price_change_run, H. }
    split.
    + rewrite Hw1, appends_logged, length_app. simpl. lia.
    + apply call_suppressed. rewrite Hw1, files_logged.
      apply last_line_mentions_old, one_line_strftime.
  - vm_compute. repeat split; reflexivity.
  - vm_compute. repeat split; reflexivity.
Qed.

(** The rule of C9 on the log [105.0 -> 110.0] and the new price 10. *)
Lemma log_check_is_a_substring_test_witness :
  let w := Scenario.start [] []
             {[ Scenario.log := Scenario.entry_at (Scenario.lit 105 0) (Scenario.lit 110 0) 0 ]} in
  let w' := snd (log_price_change Scenario.cfg Scenario.skin
                   (Scenario.lit 110 0) (Scenario.lit 10 0) w) in
  files w' = files w /\ appends_of (trace w') = appends_of (trace w).
Proof.
  apply (proj1 log_check_is_a_substring_test Scenario.cfg Scenario.skin).
  vm_compute. reflexivity.
Defined.

(** ** The webhook *)

Lemma send_ifttt_notification_run (cfg : config) (skin_name : string)
    (new_price old_price : float) (w : world) :
  send_ifttt_notification cfg skin_name new_price old_price w =
  let w1 := count_post (emit (EvPost (IFTTT_URL cfg)
                                (alert_payload skin_name new_price old_price)) w) in
  match post_script w (n_post w) with
  | Raises e => (Raise e, w1)
  | Responds r =>
      (Ok tt, emit (EvPrint (if status_code r =? 200 then MsgNotificationSent skin_name
                             else MsgIftttError (status_code r))) w1)
  end.
Proof.
  unfold send_ifttt_notification, bind, requests_post, alert_payload, price_tag.
  destruct (post_script w (n_post w)) as [e|r]; [reflexivity|].
  destruct (status_code r =? 200); reflexivity.
Qed.

Lemma send_error_notification_run (cfg : config) (error_message : string) (w : world) :
  send_error_notification cfg error_message w =
  let w1 := count_post (emit (EvPost (IFTTT_URL cfg)
                                [("value1", "Steam Price Alert Error");
                                 ("value2", error_message)]) w) in
  (Ok tt,
   emit (EvPrint match post_script w (n_post w) with
                 | Raises e => MsgErrorAlertNotSent e
                 | Responds r => if status_code r =? 200 then MsgErrorAlertSent
                                 else MsgErrorAlertFailed (status_code r)
                 end) w1).
Proof.
  unfold send_error_notification, try_except, bind, requests_post.
  destruct (post_script w (n_post w)) as [e|r]; [reflexivity|].
  destruct (status_code r =? 200); reflexivity.
Qed.

(** C6, on the code: [send_error_notification] never raises, and
    [send_ifttt_notification] turns a response that is not a success into a
    printed warning; but an exception of the POST itself (no connection, a
    timeout) is not caught in [send_ifttt_notification] and reaches the
    caller, as in the run below, where it ends [main]. *)
Theorem notification_failures :
  (forall (cfg : config) (error_message : string) (w : world),
      fst (send_error_notification cfg error_message w) = Ok tt) /\
  (forall (cfg : config) (skin_name : string) (new_price old_price : float) (w : world),
      let w1 := count_post (emit (EvPost (IFTTT_URL cfg)
                                    (alert_payload skin_name new_price old_price)) w) in
      send_ifttt_notification cfg skin_name new_price old_price w =
      match post_script w (n_post w) with
      | Responds r =>
          (Ok tt, emit (EvPrint (if status_code r =? 200 then MsgNotificationSent skin_name
                                 else MsgIftttError (status_code r))) w1)
      | Raises e => (Raise e, w1)
      end) /\
  fst (send_ifttt_notification Scenario.cfg Scenario.skin
         (Scenario.lit 112 0) (Scenario.lit 100 0)
         (Scenario.start [] [Raises ConnectionError] ∅)) = Raise ConnectionError /\
  fst (main Scenario.cfg 1
         (Scenario.start [Scenario.price_response "100,00€";
                          Scenario.price_response "112,00€"]
            [Raises ConnectionError] ∅)) = Raise ConnectionError.
Proof.
  split; [|split; [|split]].
  - intros cfg msg w. now rewrite send_error_notification_run.
  - intros cfg skin_name n o w. cbv zeta. rewrite send_ifttt_notification_run.
    cbv zeta. destruct (post_script w (n_post w)); reflexivity.
  - vm_compute. reflexivity.
  - vm_compute. reflexivity.
Qed.

(** ** A price that differs *)

Lemma changes_of_app (t1 t2 : list event) :
  changes_of (t1 ++ t2) = changes_of t1 ++ changes_of t2.
Proof.
  induction t1 as [|e t1 IH]; [reflexivity|].
  destruct e as [| | |m|]; simpl; try apply IH.
  destruct m; simpl; now rewrite ?IH.
Qed.

(** [log_price_change] returns, and leaves the webhook alone. *)
Lemma log_price_change_frame (cfg : config) (skin_name : string) (o n : float) (w : world) :
  let r := log_price_change cfg skin_name o n w in
  fst r = Ok tt /\
  post_script (snd r) = post_script w /\ n_post (snd r) = n_post w /\
  posts_of (trace (snd r)) = posts_of (trace w) /\
  changes_of (trace (snd r)) = changes_of (trace w).
Proof.
  cbv zeta. rewrite log_price_change_run.
  destruct (Str.contains _ _); unfold logged; simpl;
    rewrite ?posts_of_app, ?changes_of_app; simpl; now rewrite ?app_nil_r.
Qed.

(** [on_change], step by step. *)
Lemma on_change_run (cfg : config) (base_prices : gmap string float)
    (skin_name : string) (old_price cur : float) (w : world) :
  on_change cfg base_prices skin_name old_price cur w =
  let w2 := snd (log_price_change cfg skin_name old_price cur
                   (emit (EvPrint (MsgChanged skin_name old_price cur)) w)) in
  if check_price_change (Some old_price) (Some cur) THRESHOLD then
    let w3 := count_post (emit (EvPost (IFTTT_URL cfg)
                                  (alert_payload skin_name cur old_price)) w2) in
    match post_script w2 (n_post w2) with
    | Raises e => (Raise e, w3)
    | Responds r =>
        (Ok (<[skin_name := cur]> base_prices),
         emit (EvPrint (MsgSignificant (abs (sub cur old_price))))
           (emit (EvPrint (if status_code r =? 200 then MsgNotificationSent skin_name
                           else MsgIftttError (status_code r))) w3))
    end
  else
    (Ok (<[skin_name := cur]> base_prices),
     emit (EvPrint (MsgMinor (abs (sub cur old_price)))) w2).
Proof.
  unfold on_change, bind, print, ret. cbv zeta.
  destruct (log_price_change_frame cfg skin_name old_price cur
              (emit (EvPrint (MsgChanged skin_name old_price cur)) w)) as (Hok & _).
  destruct (log_price_change cfg skin_name old_price cur _) as [r2 w2].
  simpl in Hok. subst r2. cbn [snd].
  destruct (check_price_change (Some old_price) (Some cur) THRESHOLD); [|reflexivity].
  rewrite send_ifttt_notification_run. cbv zeta.
  destruct (post_script w2 (n_post w2)); reflexivity.
Qed.

(** What [on_change] does when the POST, if one is due, gets an answer. *)
Lemma on_change_spec (cfg : config) (base_prices : gmap string float)
    (skin_name : string) (old_price cur : float) (w : world) :
  (check_price_change (Some old_price) (Some cur) THRESHOLD = true ->
   exists r, post_script w (n_post w) = Responds r) ->
  let res := on_change cfg base_prices skin_name old_price cur w in
  let w2 := snd (log_price_change cfg skin_name old_price cur
                   (emit (EvPrint (MsgChanged skin_name old_price cur)) w)) in
  fst res = Ok (<[skin_name := cur]> base_prices) /\
  files (snd res) = files w2 /\
  appends_of (trace (snd res)) = appends_of (trace w2) /\
  posts_of (trace (snd res)) =
    (posts_of (trace w) ++
     if check_price_change (Some old_price) (Some cur) THRESHOLD
     then [(IFTTT_URL cfg, alert_payload skin_name cur old_price)] else []) /\
  changes_of (trace (snd res)) = (changes_of (trace w) ++ [(skin_name, old_price, cur)]).
Proof.
  intros Hpost. cbv zeta. rewrite on_change_run. cbv zeta.
  set (w1 := emit (EvPrint (MsgChanged skin_name old_price cur)) w).
  destruct (log_price_change_frame cfg skin_name old_price cur w1)
    as (_ & Hps & Hnp & Hposts & Hch).
  set (w2 := snd (log_price_change cfg skin_name old_price cur w1)) in *.
  assert (Hch1 : changes_of (trace w2) = changes_of (trace w) ++ [(skin_name, old_price, cur)]).
  { rewrite Hch. unfold w1. simpl. now rewrite changes_of_app. }
  assert (Hp1 : posts_of (trace w2) = posts_of (trace w)).
  { rewrite Hposts. unfold w1. simpl. now rewrite posts_of_app, app_nil_r. }
  destruct (check_price_change (Some old_price) (Some cur) THRESHOLD).
  - destruct (Hpost eq_refl) as [r Hr].
    rewrite Hps, Hnp. change (post_script w1) with (post_script w).
    change (n_post w1) with (n_post w). rewrite Hr.
    cbn [fst snd emit count_post files trace].
    rewrite !appends_of_app, !posts_of_app, !changes_of_app, Hp1, Hch1.
    cbn [appends_of posts_of changes_of].
    rewrite !app_nil_r.
    repeat split; try reflexivity.
    destruct (status_code r =? 200); simpl; now rewrite app_nil_r.
  - cbn [fst snd emit count_post files trace].
    rewrite !appends_of_app, !posts_of_app, !changes_of_app, Hp1, Hch1.
    cbn [appends_of posts_of changes_of].
    now rewrite !app_nil_r.
Qed.

Lemma monitor_item_priced (cfg : config) (base_prices : gmap string float)
    (skin_name url : string) (w w1 : world) (cur : float) :
  get_price url 3 w = (Ok (Some cur), w1) ->
  monitor_item cfg base_prices (skin_name, url) w =
  let old_price := default cur (base_prices !! skin_name) in
  if neb cur old_price then
    match on_change cfg base_prices skin_name old_price cur w1 with
    | (Ok b, w2) => (Ok b, emit (EvSleep (CHECK_INTERVAL cfg)) w2)
    | (Raise e, w2) => (Raise e, w2)
    end
  else (Ok base_prices, emit (EvSleep (CHECK_INTERVAL cfg)) w1).
Proof.
  intros H. unfold monitor_item, bind. rewrite H. cbv zeta.
  destruct (neb cur _); [|reflexivity].
  destruct (on_change _ _ _ _ _ _) as [[b|e] w2]; reflexivity.
Qed.

Lemma get_price_some (url : string) (w : world) (v : option float) :
  fst (get_price url 3 w) = Ok v ->
  exists w1, get_price url 3 w = (Ok v, w1) /\ fetch_only w w1.
Proof.
  intros H. destruct (get_price_effect url 3 w) as (v' & w1 & Hg & Hf).
  rewrite Hg in H. simpl in H. injection H as ->. now exists w1.
Qed.


(** Without a baseline the fetched price is compared with itself: unless it
    is NaN, nothing is logged, posted or stored. *)
Lemma monitor_item_no_baseline (cfg : config) (base_prices : gmap string float)
    (skin_name url : string) (w : world) (cur : float) :
  fst (get_price url 3 w) = Ok (Some cur) ->
  base_prices !! skin_name = None ->
  eqb cur cur = true ->
  let res := monitor_item cfg base_prices (skin_name, url) w in
  fst res = Ok base_prices /\
  files (snd res) = files w /\
  appends_of (trace (snd res)) = appends_of (trace w) /\
  posts_of (trace (snd res)) = posts_of (trace w).
Proof.
  intros Hg Hb He.
  destruct (get_price_some url w _ Hg) as (w1 & Hg1 & Hf).
  cbv zeta. rewrite (monitor_item_priced cfg base_prices skin_name url w w1 cur Hg1).
  cbv zeta. rewrite Hb.
  change (default cur None) with cur. unfold neb. rewrite He.
  destruct (fetch_only_posts w w1 Hf) as [Hp Ha].
  destruct Hf as (_ & _ & _ & _ & _ & Hfl & _).
  cbn [negb fst snd files trace emit].
  rewrite appends_of_app, posts_of_app. cbn [appends_of posts_of].
  now rewrite !app_nil_r.
Qed.







(** ** The first loop of [main] *)

Lemma init_item_run (base_prices : gmap string float) (skin_name url : string)
    (w w1 : world) (price : option float) :
  get_price url 3 w = (Ok price, w1) ->
  init_item base_prices (skin_name, url) w =
  match price with
  | Some p =>
      if truthy p
      then (Ok (<[skin_name := p]> base_prices), emit (EvPrint (MsgStartingAt skin_name p)) w1)
      else (Ok base_prices, emit (EvPrint (MsgCouldNotFetch skin_name)) w1)
  | None => (Ok base_prices, emit (EvPrint (MsgCouldNotFetch skin_name)) w1)
  end.
Proof.
  intros H. unfold init_item, bind. rewrite H.
  destruct price as [p|]; [|reflexivity]. destruct (truthy p); reflexivity.
Qed.

(** C10: in the first loop of [main] a fetched price of zero is handled as
    a failed fetch (the same message, no baseline), while a price that is
    not zero becomes the baseline; in the monitoring loop a fetched zero is a
    price like any other: it is compared with the last known price and
    replaces it. *)
Theorem zero_price_at_start_and_later :
  (forall (base_prices : gmap string float) (skin_name url : string) (w : world) (z : float),
      fst (get_price url 3 w) = Ok (Some z) ->
      truthy z = false ->
      init_item base_prices (skin_name, url) w =
      (Ok base_prices, emit (EvPrint (MsgCouldNotFetch skin_name)) (snd (get_price url 3 w)))) /\
  (forall (base_prices : gmap string float) (skin_name url : string) (w : world),
      fst (get_price url 3 w) = Ok None ->
      init_item base_prices (skin_name, url) w =
      (Ok base_prices, emit (EvPrint (MsgCouldNotFetch skin_name)) (snd (get_price url 3 w)))) /\
  (forall (base_prices : gmap string float) (skin_name url : string) (w : world) (p : float),
      fst (get_price url 3 w) = Ok (Some p) ->
      truthy p = true ->
      fst (init_item base_prices (skin_name, url) w) = Ok (<[skin_name := p]> base_prices)) /\
  (forall (cfg : config) (base_prices : gmap string float) (skin_name url : string)
          (w : world) (z old_price : float),
      fst (get_price url 3 w) = Ok (Some z) ->
      truthy z = false ->
      base_prices !! skin_name = Some old_price ->
      neb z old_price = true ->
      (leb THRESHOLD (abs (sub z old_price)) = true ->
       exists r, post_script w (n_post w) = Responds r) ->
      fst (monitor_item cfg base_prices (skin_name, url) w)
      = Ok (<[skin_name := z]> base_prices)).
Proof.
  split; [|split; [|split]].
  - intros base_prices skin_name url w z Hg Hz.
    destruct (get_price_some url w _ Hg) as (w1 & Hg1 & _).
    rewrite (init_item_run base_prices skin_name url w w1 _ Hg1), Hz, Hg1. reflexivity.
  - intros base_prices skin_name url w Hg.
    destruct (get_price_some url w _ Hg) as (w1 & Hg1 & _).
    rewrite (init_item_run base_prices skin_name url w w1 _ Hg1), Hg1. reflexivity.
  - intros base_prices skin_name url w p Hg Hp.
    destruct (get_price_some url w _ Hg) as (w1 & Hg1 & _).
    rewrite (init_item_run base_prices skin_name url w w1 _ Hg1), Hp. reflexivity.
  - intros cfg base_prices skin_name url w z old_price Hg Hz Hb Hne Hpost.
    destruct (get_price_some url w _ Hg) as (w1 & Hg1 & Hf).
    cbv zeta. rewrite (monitor_item_priced cfg base_prices skin_name url w w1 z Hg1).
    cbv zeta. rewrite Hb.
    change (default z (Some old_price)) with old_price. rewrite Hne.
    assert (Hpost1 : check_price_change (Some old_price) (Some z) THRESHOLD = true ->
                     exists r, post_script w1 (n_post w1) = Responds r).
    { destruct Hf as (_ & -> & _ & -> & _). exact Hpost. }
    destruct (on_change_spec cfg base_prices skin_name old_price z w1 Hpost1)
      as (Hok & _).
    destruct (on_change cfg base_prices skin_name old_price z w1) as [[b|e] w3];
      simpl in Hok; [|discriminate].
    injection Hok as ->. reflexivity.
Qed.

(** C10 on the price string [0,00€]: no baseline at the start, and a new
    last known price of zero in the monitoring loop. *)
Lemma zero_price_at_start_and_later_witness :
  let w := Scenario.start [Scenario.price_response "0,00€"] [] ∅ in
  let base_prices : gmap string float := {[ Scenario.skin := Scenario.lit 5 0 ]} in
  init_item ∅ (Scenario.skin, Scenario.url) w =
  (Ok ∅, emit (EvPrint (MsgCouldNotFetch Scenario.skin)) (snd (get_price Scenario.url 3 w))) /\
  fst (monitor_item Scenario.cfg base_prices (Scenario.skin, Scenario.url) w)
  = Ok (<[Scenario.skin := Scenario.lit 0 0]> base_prices).
Proof.
  split.
  - apply (proj1 zero_price_at_start_and_later ∅ Scenario.skin Scenario.url _
             (Scenario.lit 0 0)); vm_compute; reflexivity.
  - apply (proj2 (proj2 (proj2 zero_price_at_start_and_later)) Scenario.cfg _
             Scenario.skin Scenario.url _ (Scenario.lit 0 0) (Scenario.lit 5 0)).
    + vm_compute. reflexivity.
    + reflexivity.
    + vm_compute. reflexivity.
    + vm_compute. reflexivity.
    + intros H. vm_compute in H. discriminate H.
Defined.

(** C2, on the code: an item whose first fetch failed gets no baseline in
    the monitoring loop either. A later fetch that succeeds is compared with
    itself and not stored, so the item stays without a last known price and
    none of its changes is seen: in the run below the price is 5 in the
    first pass and 20 in the second, and nothing is stored, logged or
    posted. *)
Theorem missing_baseline_is_never_seeded :
  (forall (cfg : config) (base_prices : gmap string float) (skin_name url : string)
          (w : world) (cur : float),
      fst (get_price url 3 w) = Ok (Some cur) ->
      base_prices !! skin_name = None ->
      eqb cur cur = true ->
      fst (monitor_item cfg base_prices (skin_name, url) w) = Ok base_prices) /\
  (let first_pass := main Scenario.cfg 1 Scenario.late_start in
   let second_pass := main Scenario.cfg 2 Scenario.late_start in
   fst (get_price Scenario.url 3 (snd (initialize Scenario.cfg Scenario.late_start)))
   = Ok (Some (Scenario.lit 5 0)) /\
   fst first_pass = Ok ∅ /\
   fst (get_price Scenario.url 3 (snd first_pass)) = Ok (Some (Scenario.lit 20 0)) /\
   fst second_pass = Ok ∅ /\
   changes_of (trace (snd second_pass)) = [] /\
   appends_of (trace (snd second_pass)) = [] /\
   posts_of (trace (snd second_pass)) = []).
Proof.
  split.
  - intros cfg base_prices skin_name url w cur Hg Hb He.
    now destruct (monitor_item_no_baseline cfg base_prices skin_name url w cur Hg Hb He).
  - vm_compute. repeat split; reflexivity.
Qed.

(** The rule of C2 on the first pass of the run: the fetch gives 5, and
    there is still no baseline after it. *)
Lemma missing_baseline_is_never_seeded_witness :
  fst (monitor_item Scenario.cfg ∅ (Scenario.skin, Scenario.url)
         (snd (initialize Scenario.cfg Scenario.late_start))) = Ok ∅.
Proof.
  apply (proj1 missing_baseline_is_never_seeded Scenario.cfg ∅ Scenario.skin
           Scenario.url _ (Scenario.lit 5 0)).
  - vm_compute. reflexivity.
  - reflexivity.
  - vm_compute. reflexivity.
Defined.

(** * More of the script *)

Import Frame.

(** ** [get_price] *)

Lemma last_event_emit (e : event) (w : world) : last_event (emit e w) = Some e.
Proof.
  unfold last_event. cbn [trace emit]. rewrite List.map_app. simpl.
  now rewrite List.last_last.
Qed.

(** X1: a price string without a dollar sign that parses, once cleaned, as
    the number [v] makes [get_price] return [v] itself, whatever number of
    failed attempts came first. *)
Theorem get_price_keeps_euros
    (url : string) (retries : Z) (w : world) (k : nat) (s : string) (v : float) :
  (k < Z.to_nat retries)%nat ->
  (forall i, (i < k)%nat -> price_string (get_script w (n_get w + i)) = None) ->
  price_string (get_script w (n_get w + k)) = Some s ->
  Str.contains "$" s = false ->
  of_str (clean_price s) = Some v ->
  fst (get_price url retries w) = Ok (Some v).
Proof.
  intros Hk Hfail Hs Hd Hv. unfold get_price.
  destruct (get_price_from_priced url s k (Z.to_nat retries) 0 w Hk Hfail Hs) as [-> _].
  unfold price_of_string, convert. now rewrite Hv, Hd.
Qed.

(** X1 on the price string [10,50€], met after one failed attempt. *)
Lemma get_price_keeps_euros_witness :
  fst (get_price Scenario.url 3
         (Scenario.start [Scenario.failure_response; Scenario.price_response "10,50€"] [] ∅))
  = Ok (Some (Scenario.lit 105 (-1))).
Proof.
  apply (get_price_keeps_euros Scenario.url 3 _ 1%nat "10,50€").
  - vm_compute. lia.
  - intros i Hi. destruct i as [|i]; [reflexivity | lia].
  - reflexivity.
  - reflexivity.
  - vm_compute. reflexivity.
Defined.

(** X2: a price string that is plain ASCII once cleaned, and does not
    parse, ends [get_price] at once: it returns [None] after that attempt,
    without the attempts that are left and without sleeping again. (Outside
    ASCII, Python strips and reads more than [Str.strip] and [of_str] do: a
    no-break space, the digits of other scripts.) *)
Theorem get_price_stops_on_bad_price
    (url : string) (retries : Z) (w : world) (k : nat) (s : string) :
  (k < Z.to_nat retries)%nat ->
  (forall i, (i < k)%nat -> price_string (get_script w (n_get w + i)) = None) ->
  price_string (get_script w (n_get w + k)) = Some s ->
  Str.all is_ascii (clean_price s) = true ->
  of_str (clean_price s) = None ->
  let r := get_price url retries w in
  fst r = Ok None /\
  n_get (snd r) = (n_get w + k + 1)%nat /\
  last_event (snd r) = Some (EvPrint (MsgInvalidFormat s)).
Proof.
  intros Hk Hfail Hs _ Hv. cbv zeta. unfold get_price.
  destruct (get_price_from_priced url s k (Z.to_nat retries) 0 w Hk Hfail Hs) as [Hr Hn].
  split; [|split; [exact Hn|]].
  - rewrite Hr. unfold price_of_string. now rewrite Hv.
  - clear Hr Hn. generalize 0. revert w Hfail Hs.
    generalize dependent (Z.to_nat retries). clear retries.
    induction k as [|k IH]; intros n Hk w Hfail Hs a.
    + destruct n as [|n]; [lia|]. cbn [get_price_from]. unfold bind.
      rewrite Nat.add_0_r in Hs. rewrite (attempt_priced url a w s Hs), Hv.
      cbn [snd]. apply last_event_emit.
    + destruct n as [|n]; [lia|]. cbn [get_price_from]. unfold bind.
      assert (H0 : price_string (get_script w (n_get w)) = None).
      { rewrite <- (Nat.add_0_r (n_get w)). apply Hfail. lia. }
      destruct (attempt_failed url a w H0) as [m ->].
      apply IH.
      * lia.
      * intros i Hi. simpl. rewrite <- Nat.add_succ_r. apply Hfail. lia.
      * simpl. now rewrite <- Nat.add_succ_r.
Qed.

(** X2 on the placeholder [--], met at the first of three attempts. *)
Lemma get_price_stops_on_bad_price_witness :
  let r := get_price Scenario.url 3
             (Scenario.start [Scenario.price_response "--";
                              Scenario.price_response "5,00€"] [] ∅) in
  fst r = Ok None /\
  n_get (snd r) = 1%nat /\
  last_event (snd r) = Some (EvPrint (MsgInvalidFormat "--")).
Proof.
  refine (get_price_stops_on_bad_price Scenario.url 3
            (Scenario.start [Scenario.price_response "--";
                             Scenario.price_response "5,00€"] [] ∅)
            0%nat "--" _ _ _ _ _).
  - vm_compute. lia.
  - intros i Hi. lia.
  - reflexivity.
  - reflexivity.
  - vm_compute. reflexivity.
Defined.

(** X3: [get_price] never raises, whatever the source sends and however
    many attempts it is given; and all it does is fetch, print and sleep: the
    files, the webhook and the clock are left alone. *)
Theorem get_price_is_safe (url : string) (retries : Z) (w : world) :
  let r := get_price url retries w in
  (exists price, fst r = Ok price) /\
  files (snd r) = files w /\
  appends_of (trace (snd r)) = appends_of (trace w) /\
  posts_of (trace (snd r)) = posts_of (trace w) /\
  n_post (snd r) = n_post w /\
  n_now (snd r) = n_now w.
Proof.
  cbv zeta. destruct (get_price_effect url retries w) as (v & w' & -> & Hf).
  destruct (fetch_only_posts w w' Hf) as [Hp Ha].
  destruct Hf as (_ & _ & _ & Hnp & Hnn & Hfl & _).
  simpl. repeat split; try assumption. now exists v.
Qed.

(** ** [check_price_change] *)

Lemma sub_same (s : bool) (m : positive) (e : Z) :
  sub (S754_finite s m e) (S754_finite s m e) = S754_zero false.
Proof.
  unfold sub. simpl. now rewrite Z.sub_diag.
Qed.

Lemma finite_eqb_same (s s' : bool) (m m' : positive) (e e' : Z) :
  eqb (S754_finite s m e) (S754_finite s' m' e') = true ->
  s = s' /\ m = m' /\ e = e'.
Proof.
  unfold eqb, SFeqb. simpl.
  destruct s, s'; try discriminate;
    destruct (Z.compare_spec e e') as [He| |]; try discriminate;
    fold (Pos.compare m m');
    destruct (Pos.compare_spec m m') as [Hm| |]; try discriminate;
    intros _; now subst.
Qed.

(** X4: two prices that compare equal (the same number, or 0.0 and -0.0)
    never count as a change of 10 or more, and a NaN on either side never
    does for any threshold. *)
Theorem equal_or_nan_prices_never_alert :
  (forall a b : float,
      eqb a b = true -> check_price_change (Some a) (Some b) THRESHOLD = false) /\
  (forall a t : float,
      check_price_change (Some S754_nan) (Some a) t = false /\
      check_price_change (Some a) (Some S754_nan) t = false).
Proof.
  split.
  - intros a b H. unfold check_price_change.
    destruct a as [sa|sa| |sa ma ea], b as [sb|sb| |sb mb eb];
      try discriminate H; try (destruct sa, sb; try discriminate H; reflexivity).
    apply finite_eqb_same in H as (-> & -> & ->). now rewrite sub_same.
  - intros a t. unfold check_price_change, leb, SFleb, abs, sub. split.
    + destruct a; simpl; destruct t; reflexivity.
    + destruct a; simpl; destruct t; reflexivity.
Qed.

(** X4 on 0.0 and -0.0. *)
Lemma equal_or_nan_prices_never_alert_witness :
  check_price_change (Some (S754_zero false)) (Some (S754_zero true)) THRESHOLD = false.
Proof.
  apply (proj1 equal_or_nan_prices_never_alert). reflexivity.
Defined.

(** ** [log_price_change] *)

Lemma grows_refl (fs : gmap string string) : grows fs fs.
Proof. intros path text H. exists "". now rewrite str_app_nil_r. Qed.

Lemma grows_trans (fs1 fs2 fs3 : gmap string string) :
  grows fs1 fs2 -> grows fs2 fs3 -> grows fs1 fs3.
Proof.
  intros H12 H23 path text H.
  destruct (H12 path text H) as [m1 H1].
  destruct (H23 path _ H1) as [m2 H2].
  exists (m1 +:+ m2). now rewrite <- str_app_assoc.
Qed.

Lemma grows_append (fs : gmap string string) (f more : string) :
  grows fs (<[f := default "" (fs !! f) +:+ more]> fs).
Proof.
  intros path text H. destruct (decide (f = path)) as [->|Hne].
  - rewrite lookup_insert_eq, H. now exists more.
  - rewrite lookup_insert_ne by exact Hne. exists "". now rewrite str_app_nil_r.
Qed.

(** X5: [log_price_change] only ever adds to the end of the log of its
    skin: the text that was in the files stays, every file but that log is
    untouched, the clock is read once at most, and neither the price source
    nor the webhook is called. *)
Theorem log_price_change_only_appends
    (cfg : config) (skin_name : string) (old_price new_price : float) (w : world) :
  let file_name := log_file cfg skin_name in
  let r := log_price_change cfg skin_name old_price new_price w in
  grows (files w) (files (snd r)) /\
  (forall path, path <> file_name -> files (snd r) !! path = files w !! path) /\
  (n_now w <= n_now (snd r) <= S (n_now w))%nat /\
  n_get (snd r) = n_get w /\
  n_post (snd r) = n_post w /\
  posts_of (trace (snd r)) = posts_of (trace w).
Proof.
  cbv zeta. rewrite log_price_change_run.
  destruct (Str.contains _ _); cbn [fst snd].
  - cbn [files n_now n_get n_post trace emit count_now].
    rewrite posts_of_app. cbn [posts_of]. rewrite app_nil_r.
    repeat split; try reflexivity; try lia. apply grows_refl.
  - rewrite files_logged. unfold logged.
    cbn [files n_now n_get n_post trace emit count_now set_files].
    rewrite !posts_of_app. cbn [posts_of]. rewrite !app_nil_r.
    repeat split; try reflexivity; try lia.
    + apply grows_append.
    + intros path Hne. now rewrite lookup_insert_ne.
Qed.

(** X6: when the log of the skin is missing, empty, or ends in a blank
    line, the entry is written whatever the prices are; a missing log is
    created by it. *)
Theorem log_price_change_starts_a_log
    (cfg : config) (skin_name : string) (old_price new_price : float) (w : world) :
  stored_last_line (files w) (log_file cfg skin_name) = "" ->
  let file_name := log_file cfg skin_name in
  let entry := entry_text old_price new_price (strftime (clock w (n_now w))) +:+ LF in
  let w' := snd (log_price_change cfg skin_name old_price new_price w) in
  files w' !! file_name = Some (default "" (files w !! file_name) +:+ entry) /\
  appends_of (trace w') = appends_of (trace w) ++ [(file_name, entry)].
Proof.
  intros H. cbv zeta. rewrite log_price_change_run, H.
  destruct (price_tag_nonempty new_price) as (c & s & ->).
  cbn [Str.contains Str.startswith orb snd].
  rewrite files_logged, appends_logged, lookup_insert_eq. now split.
Qed.

(** X6 on a skin without a log: the log is created and holds the entry. *)
Lemma log_price_change_starts_a_log_witness :
  let w := Scenario.start [] [] ∅ in
  let w' := snd (log_price_change Scenario.cfg Scenario.skin
                   (Scenario.lit 100 0) (Scenario.lit 112 0) w) in
  files w' !! Scenario.log
  = Some ("" +:+ Scenario.entry_at (Scenario.lit 100 0) (Scenario.lit 112 0) 0) /\
  appends_of (trace w')
  = [] ++ [(Scenario.log, Scenario.entry_at (Scenario.lit 100 0) (Scenario.lit 112 0) 0)].
Proof.
  refine (log_price_change_starts_a_log Scenario.cfg Scenario.skin
            (Scenario.lit 100 0) (Scenario.lit 112 0) (Scenario.start [] [] ∅) _).
  reflexivity.
Defined.

(** ** Replacing and stripping *)

(** What holds of every character of [s] and of [new] holds of every
    character of [s.replace(old, new)]. *)
Lemma all_replace_go (P : ascii -> bool) (old new : string) (fuel : nat) :
  forall s, Str.all P s = true -> Str.all P new = true ->
            Str.all P (Str.replace_go fuel old new s) = true.
Proof.
  induction fuel as [|fuel IH]; intros s Hs Hn; [destruct s; exact Hs|].
  destruct s as [|c r]; [reflexivity|]. cbn [Str.replace_go].
  destruct (Str.startswith old (String c r)).
  - rewrite all_app, Hn. apply IH; [|exact Hn]. now apply all_drop.
  - simpl in Hs |- *. apply andb_prop in Hs as [Hc Hr]. rewrite Hc. now apply IH.
Qed.

Lemma all_replace (P : ascii -> bool) (old new s : string) :
  Str.all P s = true -> Str.all P new = true -> Str.all P (Str.replace old new s) = true.
Proof.
  intros Hs Hn. unfold Str.replace. destruct old; [exact Hs|]. now apply all_replace_go.
Qed.

(** Replacing the character [c] by a text without [c] leaves no [c]. *)
Lemma replace_go_char (c : ascii) (new : string) (fuel : nat) :
  Str.all (fun x => negb (Ascii.eqb x c)) new = true ->
  forall s, (String.length s <= fuel)%nat ->
            Str.all (fun x => negb (Ascii.eqb x c))
              (Str.replace_go fuel (String c "") new s) = true.
Proof.
  intros Hn. induction fuel as [|fuel IH]; intros s Hlen.
  - destruct s; [reflexivity | simpl in Hlen; lia].
  - destruct s as [|a r]; [reflexivity|]. cbn [Str.replace_go Str.startswith].
    simpl in Hlen. rewrite andb_true_r.
    destruct (Ascii.eqb c a) eqn:E.
    + rewrite all_app, Hn. apply IH. simpl. lia.
    + simpl. rewrite Ascii.eqb_sym, E. simpl. apply IH. lia.
Qed.

Lemma replace_char (c : ascii) (new s : string) :
  Str.all (fun x => negb (Ascii.eqb x c)) new = true ->
  Str.all (fun x => negb (Ascii.eqb x c)) (Str.replace (String c "") new s) = true.
Proof. intros Hn. unfold Str.replace. now apply replace_go_char. Qed.

(** A text without the character [c] is left as it is. *)
Lemma replace_go_absent (c : ascii) (new : string) (fuel : nat) :
  forall s, Str.all (fun x => negb (Ascii.eqb x c)) s = true ->
            Str.replace_go fuel (String c "") new s = s.
Proof.
  induction fuel as [|fuel IH]; intros s Hs; [now destruct s|].
  destruct s as [|a r]; [reflexivity|]. cbn [Str.replace_go Str.startswith].
  simpl in Hs. apply andb_prop in Hs as [Ha Hr].
  apply negb_true_iff in Ha. rewrite Ascii.eqb_sym, Ha. simpl. now rewrite IH.
Qed.

Lemma all_and (P Q : ascii -> bool) (s : string) :
  Str.all (fun c => P c && Q c) s = Str.all P s && Str.all Q s.
Proof.
  induction s as [|c s IH]; [reflexivity|]. simpl. rewrite IH.
  destruct (P c), (Q c), (Str.all P s), (Str.all Q s); reflexivity.
Qed.

(** [replace] of a single character goes character by character. *)
Lemma replace_go_subst (c : ascii) (new : string) (fuel : nat) :
  forall s, (String.length s <= fuel)%nat ->
            Str.replace_go fuel (String c "") new s = subst_char c new s.
Proof.
  induction fuel as [|fuel IH]; intros s Hlen.
  - destruct s; [reflexivity | simpl in Hlen; lia].
  - destruct s as [|a r]; [reflexivity|].
    cbn [Str.replace_go Str.startswith subst_char String.length Str.drop].
    simpl in Hlen. rewrite andb_true_r.
    destruct (Ascii.eqb c a).
    + rewrite IH by lia. reflexivity.
    + rewrite IH by lia. now rewrite str_app_cons, str_app_nil_l.
Qed.

Lemma replace_subst (c : ascii) (new s : string) :
  Str.replace (String c "") new s = subst_char c new s.
Proof. unfold Str.replace. now apply replace_go_subst. Qed.

(** The two replacements of line 61, one after the other, are one pass
    over the name. *)
Lemma file_stem_replace (s : string) :
  Str.replace " " "_" (Str.replace "|" "" s) = file_stem s.
Proof.
  rewrite !replace_subst.
  induction s as [|c s IH]; [reflexivity|].
  cbn [subst_char file_stem]. rewrite Ascii.eqb_sym.
  destruct (Ascii.eqb c "|") eqn:Ep.
  - rewrite str_app_nil_l. exact IH.
  - rewrite str_app_cons, str_app_nil_l. cbn [subst_char]. rewrite IH.
    rewrite Ascii.eqb_sym. destruct (Ascii.eqb c " "); reflexivity.
Qed.

(** X7: the log file of a skin is named after the skin, with every pipe
    dropped and every space turned into an underscore, one for one, and
    every other character kept, followed by [.txt]; that name has neither a
    pipe nor a space; and the name of a skin that has neither is used as it
    is. *)
Theorem log_file_name (cfg : config) (skin_name : string) :
  log_file cfg skin_name
  = path_join (LOG_FOLDER cfg) (file_stem skin_name +:+ ".txt") /\
  Str.all name_char (file_stem skin_name) = true /\
  (Str.all name_char skin_name = true -> file_stem skin_name = skin_name).
Proof.
  split; [|split].
  - unfold log_file. now rewrite file_stem_replace.
  - rewrite <- file_stem_replace.
    unfold name_char. rewrite all_and. apply andb_true_intro. split.
    + apply all_replace; [|reflexivity]. now apply (replace_char "|" "").
    + now apply (replace_char " " "_").
  - intros H. rewrite <- file_stem_replace.
    unfold name_char in H. rewrite all_and in H.
    apply andb_prop in H as [Hp Hs].
    unfold Str.replace.
    rewrite (replace_go_absent "|" "" _ skin_name Hp).
    now rewrite (replace_go_absent " " "_" _ skin_name Hs).
Qed.

(** X7 on a skin name with a pipe between two spaces, and on one without
    pipes and spaces. *)
Lemma log_file_name_witness :
  log_file Scenario.cfg "AK-47 | Redline" = "logs/AK-47__Redline.txt" /\
  file_stem "AWP_Asiimov" = "AWP_Asiimov".
Proof.
  split.
  - exact (proj1 (log_file_name Scenario.cfg "AK-47 | Redline")).
  - apply (proj2 (proj2 (log_file_name Scenario.cfg "AWP_Asiimov"))). reflexivity.
Defined.

Lemma all_lstrip (P : ascii -> bool) (s : string) :
  Str.all P s = true -> Str.all P (Str.lstrip s) = true.
Proof.
  induction s as [|c s IH]; [reflexivity|]. simpl.
  intros H. destruct (Str.is_space c); [|exact H].
  apply andb_prop in H as [_ H]. now apply IH.
Qed.

Lemma all_rstrip (P : ascii -> bool) (s : string) :
  Str.all P s = true -> Str.all P (Str.rstrip s) = true.
Proof.
  induction s as [|c s IH]; [reflexivity|]. simpl.
  intros [Hc Hs]%andb_prop. specialize (IH Hs).
  destruct (Str.rstrip s).
  - destruct (Str.is_space c); simpl; now rewrite ?Hc.
  - simpl in *. now rewrite Hc, IH.
Qed.

Lemma lstrip_first (s : string) (c : ascii) :
  first_char (Str.lstrip s) = Some c -> Str.is_space c = false.
Proof.
  induction s as [|a s IH]; [discriminate|]. simpl.
  destruct (Str.is_space a) eqn:E; [exact IH|].
  simpl. intros [= <-]. exact E.
Qed.

Lemma rstrip_last (s : string) (c : ascii) :
  last_char (Str.rstrip s) = Some c -> Str.is_space c = false.
Proof.
  induction s as [|a s IH]; [discriminate|]. simpl.
  destruct (Str.rstrip s) as [|b r] eqn:E.
  - destruct (Str.is_space a) eqn:Ea; [discriminate|].
    simpl. intros [= <-]. exact Ea.
  - exact IH.
Qed.

Lemma lstrip_last (s : string) (c : ascii) :
  last_char (Str.lstrip s) = Some c -> last_char s = Some c.
Proof.
  induction s as [|a s IH]; [discriminate|]. simpl.
  destruct (Str.is_space a); [|exact (fun H => H)].
  intros H. specialize (IH H). destruct s; [discriminate | exact IH].
Qed.

(** X8: the cleaned price string has neither a dollar sign nor a comma, and
    no white space at either end, whatever the source sent. *)
Theorem clean_price_is_clean (price_str : string) :
  Str.all number_char (clean_price price_str) = true /\
  trimmed (clean_price price_str).
Proof.
  split.
  - unfold number_char, clean_price, Str.strip. rewrite all_and.
    apply andb_true_intro. split.
    + apply all_lstrip, all_rstrip.
      do 3 (apply all_replace; [|reflexivity]).
      now apply (replace_char "$" "").
    + apply all_lstrip, all_rstrip.
      apply all_replace; [|reflexivity].
      now apply (replace_char "," ".").
  - unfold trimmed, clean_price, Str.strip. split; intros c H.
    + exact (lstrip_first _ c H).
    + exact (rstrip_last _ c (lstrip_last _ c H)).
Qed.

(** ** What a run leaves in place *)

Lemma run_step_refl (paths : list string) (w : world) : run_step paths 0 w w.
Proof.
  unfold run_step. repeat split; try reflexivity; try lia. apply grows_refl.
Qed.

Lemma run_step_trans (paths : list string) (a b : nat) (w1 w2 w3 : world) :
  run_step paths a w1 w2 -> run_step paths b w2 w3 -> run_step paths (a + b) w1 w3.
Proof.
  intros (Hg & Hp & Hc & Hgr & Ho & Hn) (Hg' & Hp' & Hc' & Hgr' & Ho' & Hn').
  unfold run_step. repeat split; try congruence; try lia.
  - eapply grows_trans; eassumption.
  - intros path Hpath. now rewrite Ho', Ho.
Qed.

Lemma run_step_weaken (paths paths' : list string) (a b : nat) (w w' : world) :
  (a <= b)%nat -> (forall p, In p paths -> In p paths') ->
  run_step paths a w w' -> run_step paths' b w w'.
Proof.
  intros Hab Hsub (Hg & Hp & Hc & Hgr & Ho & Hn).
  unfold run_step. repeat split; try assumption; try lia.
  intros path Hpath. apply Ho. intros Hin. apply Hpath, Hsub, Hin.
Qed.

Lemma run_step_emit (paths : list string) (e : event) (w : world) :
  run_step paths 0 w (emit e w).
Proof.
  unfold run_step. cbn. repeat split; try reflexivity; try lia. apply grows_refl.
Qed.

Lemma run_step_count_post (paths : list string) (w : world) :
  run_step paths 0 w (count_post w).
Proof.
  unfold run_step. cbn. repeat split; try reflexivity; try lia. apply grows_refl.
Qed.

Lemma run_step_fetch (paths : list string) (k : nat) (w w' : world) :
  fetch_only w w' -> (n_get w <= n_get w' <= n_get w + k)%nat -> run_step paths k w w'.
Proof.
  intros (Hg & Hp & Hc & _ & _ & Hf & _) Hn.
  unfold run_step. rewrite Hf. repeat split; try assumption; try lia. apply grows_refl.
Qed.

Lemma run_step_log (cfg : config) (skin_name : string) (o n : float) (w : world) :
  run_step [log_file cfg skin_name] 0 w (snd (log_price_change cfg skin_name o n w)).
Proof.
  rewrite log_price_change_run. destruct (Str.contains _ _); cbn [snd].
  - unfold run_step. cbn. repeat split; try reflexivity; try lia. apply grows_refl.
  - unfold run_step, logged. cbn. repeat split; try reflexivity; try lia.
    + apply grows_append.
    + intros path Hpath. apply lookup_insert_ne. intros Heq. apply Hpath. now left.
Qed.

Lemma run_step_on_change (cfg : config) (base_prices : gmap string float)
    (skin_name : string) (old_price cur : float) (w : world) :
  run_step [log_file cfg skin_name] 0 w
    (snd (on_change cfg base_prices skin_name old_price cur w)).
Proof.
  rewrite on_change_run. cbv zeta.
  pose proof (run_step_log cfg skin_name old_price cur
                (emit (EvPrint (MsgChanged skin_name old_price cur)) w)) as Hlog.
  set (w2 := snd (log_price_change cfg skin_name old_price cur _)) in *.
  assert (H2 : run_step [log_file cfg skin_name] 0 w w2).
  { apply (run_step_trans _ 0 0 _ (emit (EvPrint (MsgChanged skin_name old_price cur)) w));
      [apply run_step_emit | exact Hlog]. }
  destruct (check_price_change _ _ _).
  - set (w3 := count_post (emit _ w2)).
    assert (H3 : run_step [log_file cfg skin_name] 0 w w3).
    { apply (run_step_trans _ 0 0 _ w2); [exact H2|].
      apply (run_step_trans _ 0 0 _ (emit (EvPost (IFTTT_URL cfg)
                                             (alert_payload skin_name cur old_price)) w2));
        [apply run_step_emit | apply run_step_count_post]. }
    destruct (post_script w2 (n_post w2)); cbn [snd]; [exact H3|].
    apply (run_step_trans _ 0 0 _ w3); [exact H3|].
    eapply (run_step_trans _ 0 0); apply run_step_emit.
  - cbn [snd]. apply (run_step_trans _ 0 0 _ w2); [exact H2 | apply run_step_emit].
Qed.

(** [get_price] with its default of three attempts. *)
Lemma get_price_three (url : string) (w : world) :
  exists v w1, get_price url 3 w = (Ok v, w1) /\ fetch_only w w1 /\
               (n_get w <= n_get w1 <= n_get w + 3)%nat.
Proof.
  unfold get_price. change (Z.to_nat 3) with 3%nat.
  destruct (get_price_from_effect url 3 0 w) as (Hf & Hn & v & Hv).
  destruct (get_price_from url 0 3 w) as [r w1]. simpl in *. subst r.
  now exists v, w1.
Qed.

Lemma run_step_monitor_item (cfg : config) (base_prices : gmap string float)
    (skin_name url : string) (w : world) :
  run_step [log_file cfg skin_name] 3 w
    (snd (monitor_item cfg base_prices (skin_name, url) w)).
Proof.
  destruct (get_price_three url w) as (v & w1 & Hg & Hf & Hn).
  pose proof (run_step_fetch [log_file cfg skin_name] 3 w w1 Hf Hn) as H1.
  destruct v as [cur|].
  - rewrite (monitor_item_priced cfg base_prices skin_name url w w1 cur Hg). cbv zeta.
    destruct (neb cur _).
    + pose proof (run_step_on_change cfg base_prices skin_name
                    (default cur (base_prices !! skin_name)) cur w1) as H2.
      destruct (on_change _ _ _ _ _ _) as [[b|e] w2]; cbn [snd] in *.
      * apply (run_step_trans _ 3 0 _ w1); [exact H1|].
        apply (run_step_trans _ 0 0 _ w2); [exact H2 | apply run_step_emit].
      * apply (run_step_trans _ 3 0 _ w1); [exact H1 | exact H2].
    + cbn [snd]. apply (run_step_trans _ 3 0 _ w1); [exact H1 | apply run_step_emit].
  - rewrite (monitor_item_unavailable cfg base_prices skin_name url w w1 Hg). cbn [snd].
    apply (run_step_trans _ 3 0 _ w1); [exact H1 | apply run_step_emit].
Qed.

Lemma run_step_for_each {A S : Type} (paths : list string) (k : nat)
    (f : S -> A -> M S) (xs : list A) :
  (forall s x w, In x xs -> run_step paths k w (snd (f s x w))) ->
  forall s w, run_step paths (k * length xs) w (snd (for_each f xs s w)).
Proof.
  induction xs as [|x xs IH]; intros Hf s w.
  - rewrite Nat.mul_0_r. apply run_step_refl.
  - cbn [for_each]. unfold bind.
    pose proof (Hf s x w (or_introl eq_refl)) as H1.
    destruct (f s x w) as [[s'|e] w1]; cbn [snd] in *.
    + replace (k * length (x :: xs))%nat with (k + k * length xs)%nat by (simpl; lia).
      apply (run_step_trans _ _ _ _ w1); [exact H1|].
      apply IH. intros s0 x0 w0 Hin. apply Hf. now right.
    + apply (run_step_weaken paths paths k); [simpl; lia | auto | exact H1].
Qed.

Lemma run_step_monitor_cycle (cfg : config) (base_prices : gmap string float) (w : world) :
  run_step (log_files cfg) (3 * length (SKINS cfg)) w
    (snd (monitor_cycle cfg base_prices w)).
Proof.
  unfold monitor_cycle. apply run_step_for_each.
  intros s [skin_name url] w0 Hin.
  apply (run_step_weaken [log_file cfg skin_name] _ 3 3); [lia| |apply run_step_monitor_item].
  intros p [<-|[]]. unfold log_files.
  apply (in_map (fun item : string * string => log_file cfg (fst item)) _ _ Hin).
Qed.

Lemma run_step_monitor (cfg : config) (cycles : nat) :
  forall (base_prices : gmap string float) (w : world),
    run_step (log_files cfg) (3 * length (SKINS cfg) * cycles) w
      (snd (monitor cfg cycles base_prices w)).
Proof.
  induction cycles as [|n IH]; intros base_prices w.
  - rewrite Nat.mul_0_r. apply run_step_refl.
  - cbn [monitor]. unfold bind.
    pose proof (run_step_monitor_cycle cfg base_prices w) as H1.
    destruct (monitor_cycle cfg base_prices w) as [[b|e] w1]; cbn [snd] in *.
    + replace (3 * length (SKINS cfg) * S n)%nat
        with (3 * length (SKINS cfg) + 3 * length (SKINS cfg) * n)%nat by lia.
      apply (run_step_trans _ _ _ _ w1); [exact H1 | apply IH].
    + apply (run_step_weaken (log_files cfg) _ (3 * length (SKINS cfg)));
        [lia | auto | exact H1].
Qed.

Lemma init_item_total (base_prices : gmap string float) (skin_name url : string) (w : world) :
  exists b w', init_item base_prices (skin_name, url) w = (Ok b, w') /\
               fetch_only w w' /\ (n_get w <= n_get w' <= n_get w + 3)%nat /\
               (b = base_prices \/
                exists p, truthy p = true /\ b = <[skin_name := p]> base_prices).
Proof.
  destruct (get_price_three url w) as (v & w1 & Hg & Hf & Hn).
  rewrite (init_item_run base_prices skin_name url w w1 v Hg).
  assert (Hq : forall m, fetch_only w (emit (EvPrint m) w1)).
  { intros m. eapply fetch_only_trans; [exact Hf | now apply fetch_only_emit]. }
  destruct v as [p|]; [destruct (truthy p) eqn:Hp|]; eexists _, _;
    (split; [reflexivity|]); (split; [apply Hq|]); (split; [exact Hn|]); eauto.
Qed.

(** After the first loop of [main], every stored price belongs to a skin of
    the list and is not zero. *)
Lemma for_each_init_item (Q : string -> Prop) (xs : list (string * string)) :
  (forall x, In x xs -> Q (fst x)) ->
  forall (base_prices : gmap string float) (w : world),
    (forall name p, base_prices !! name = Some p -> truthy p = true /\ Q name) ->
    exists b w',
      for_each init_item xs base_prices w = (Ok b, w') /\
      fetch_only w w' /\
      (n_get w <= n_get w' <= n_get w + 3 * length xs)%nat /\
      (forall name p, b !! name = Some p -> truthy p = true /\ Q name).
Proof.
  induction xs as [|[skin_name url] xs IH]; intros HQ base_prices w Hinv.
  - exists base_prices, w.
    split; [reflexivity|]. split; [apply fetch_only_refl|].
    split; [simpl; lia | exact Hinv].
  - destruct (init_item_total base_prices skin_name url w)
      as (b & w1 & Hrun & Hf & Hn & Hb).
    assert (Hinv1 : forall name p, b !! name = Some p -> truthy p = true /\ Q name).
    { destruct Hb as [->|(p0 & Hp0 & ->)]; [exact Hinv|].
      intros name p. destruct (decide (skin_name = name)) as [<-|Hne].
      - rewrite lookup_insert_eq. intros [= <-]. split; [exact Hp0|].
        apply (HQ (skin_name, url)). now left.
      - rewrite lookup_insert_ne by exact Hne. apply Hinv. }
    destruct (IH (fun x Hx => HQ x (or_intror Hx)) b w1 Hinv1)
      as (b' & w' & Hrun' & Hf' & Hn' & Hinv').
    exists b', w'. cbn [for_each]. unfold bind. rewrite Hrun, Hrun'.
    split; [reflexivity|]. split; [eapply fetch_only_trans; eassumption|].
    split; [simpl; lia | exact Hinv'].
Qed.

Lemma initialize_run (cfg : config) (w : world) :
  exists b w',
    initialize cfg w = (Ok b, w') /\ fetch_only w w' /\
    (n_get w <= n_get w' <= n_get w + 3 * length (SKINS cfg))%nat /\
    (forall name p, b !! name = Some p ->
                    truthy p = true /\ In name (map fst (SKINS cfg))).
Proof.
  unfold initialize, bind, print, ret.
  destruct (for_each_init_item (fun name => In name (map fst (SKINS cfg))) (SKINS cfg)
              (fun x Hx => in_map fst _ _ Hx) ∅ (emit (EvPrint MsgFetchingInitial) w))
    as (b & w1 & Hrun & Hf & Hn & Hinv).
  { intros name p H. now rewrite lookup_empty in H. }
  rewrite Hrun. exists b, (emit (EvPrint MsgMonitoring) w1).
  split; [reflexivity|]. split; [|split; [exact Hn | exact Hinv]].
  eapply fetch_only_trans; [now apply (fetch_only_emit (EvPrint MsgFetchingInitial))|].
  eapply fetch_only_trans; [exact Hf | now apply fetch_only_emit].
Qed.

(** X9: the first loop of [main] never raises and only fetches: it writes
    no log and calls no webhook, makes at most three requests per skin, and
    every baseline it stores is a price other than zero of a skin of the
    list. *)
Theorem initialize_is_safe (cfg : config) (w : world) :
  let r := initialize cfg w in
  (exists base_prices,
      fst r = Ok base_prices /\
      forall name p, base_prices !! name = Some p ->
                     truthy p = true /\ In name (map fst (SKINS cfg))) /\
  files (snd r) = files w /\
  appends_of (trace (snd r)) = appends_of (trace w) /\
  posts_of (trace (snd r)) = posts_of (trace w) /\
  (n_get (snd r) <= n_get w + 3 * length (SKINS cfg))%nat.
Proof.
  cbv zeta. destruct (initialize_run cfg w) as (b & w' & -> & Hf & Hn & Hinv).
  destruct (fetch_only_posts w w' Hf) as [Hp Ha].
  destruct Hf as (_ & _ & _ & _ & _ & Hfl & _).
  cbn [fst snd]. repeat split; try assumption; try lia.
  exists b. now split.
Qed.

Lemma run_step_main (cfg : config) (cycles : nat) (w : world) :
  run_step (log_files cfg) (3 * length (SKINS cfg) * S cycles) w
    (snd (main cfg cycles w)).
Proof.
  unfold main, bind.
  destruct (initialize_run cfg w) as (b & w1 & -> & Hf & Hn & _).
  replace (3 * length (SKINS cfg) * S cycles)%nat
    with (3 * length (SKINS cfg) + 3 * length (SKINS cfg) * cycles)%nat by lia.
  apply (run_step_trans _ _ _ _ w1); [now apply run_step_fetch | apply run_step_monitor].
Qed.

(** X10: however a run of [main] goes and ends, the files it leaves are the
    files it found with text added at their end: nothing is removed or
    rewritten, and only the logs of the configured skins change. *)
Theorem main_only_appends_to_logs (cfg : config) (cycles : nat) (w : world) :
  let w' := snd (main cfg cycles w) in
  grows (files w) (files w') /\
  forall path, ~ In path (log_files cfg) -> files w' !! path = files w !! path.
Proof.
  cbv zeta. destruct (run_step_main cfg cycles w) as (_ & _ & _ & Hg & Ho & _).
  now split.
Qed.

(** X11: a run of [main] makes at most three requests to the price source
    per skin in the first loop and in each pass of the monitoring loop. *)
Theorem main_request_bound (cfg : config) (cycles : nat) (w : world) :
  (n_get (snd (main cfg cycles w))
   <= n_get w + 3 * length (SKINS cfg) * (cycles + 1))%nat.
Proof.
  destruct (run_step_main cfg cycles w) as (_ & _ & _ & _ & _ & Hn).
  rewrite Nat.add_1_r. lia.
Qed.

(** ** A price that did not change, and the pause *)

(** X13: a fetched price that compares equal to the last known one (0.0
    and -0.0 included) changes nothing: the last known prices stay as they
    are, nothing is logged and no alert is posted. *)
Theorem unchanged_price_does_nothing
    (cfg : config) (base_prices : gmap string float) (skin_name url : string)
    (w : world) (cur old_price : float) :
  fst (get_price url 3 w) = Ok (Some cur) ->
  base_prices !! skin_name = Some old_price ->
  eqb cur old_price = true ->
  let r := monitor_item cfg base_prices (skin_name, url) w in
  fst r = Ok base_prices /\
  files (snd r) = files w /\
  appends_of (trace (snd r)) = appends_of (trace w) /\
  posts_of (trace (snd r)) = posts_of (trace w).
Proof.
  intros Hg Hb He.
  destruct (get_price_some url w _ Hg) as (w1 & Hg1 & Hf).
  cbv zeta. rewrite (monitor_item_priced cfg base_prices skin_name url w w1 cur Hg1).
  cbv zeta. rewrite Hb.
  change (default cur (Some old_price)) with old_price. unfold neb. rewrite He.
  destruct (fetch_only_posts w w1 Hf) as [Hp Ha].
  destruct Hf as (_ & _ & _ & _ & _ & Hfl & _).
  cbn [negb fst snd files trace emit].
  rewrite appends_of_app, posts_of_app. cbn [appends_of posts_of].
  now rewrite !app_nil_r.
Qed.

(** X13 on a last known price of -0.0 and a fetched [0,00€]. *)
Lemma unchanged_price_does_nothing_witness :
  let w := Scenario.start [Scenario.price_response "0,00€"] [] ∅ in
  let base_prices : gmap string float := {[ Scenario.skin := S754_zero true ]} in
  let r := monitor_item Scenario.cfg base_prices (Scenario.skin, Scenario.url) w in
  fst r = Ok base_prices /\
  files (snd r) = files w /\
  appends_of (trace (snd r)) = appends_of (trace w) /\
  posts_of (trace (snd r)) = posts_of (trace w).
Proof.
  refine (unchanged_price_does_nothing Scenario.cfg {[ Scenario.skin := S754_zero true ]}
            Scenario.skin Scenario.url
            (Scenario.start [Scenario.price_response "0,00€"] [] ∅)
            (S754_zero false) (S754_zero true) _ _ _).
  - vm_compute. reflexivity.
  - vm_compute. reflexivity.
  - reflexivity.
Defined.

(** X14: the pause of [CHECK_INTERVAL] seconds ends the handling of every
    item whose price was fetched, changed or not; an item whose fetch failed
    is left without that pause, on the message that the fetch failed. *)
Theorem pause_follows_a_fetched_price
    (cfg : config) (base_prices : gmap string float) (skin_name url : string) (w : world) :
  let r := monitor_item cfg base_prices (skin_name, url) w in
  (fst (get_price url 3 w) = Ok None ->
   last_event (snd r) = Some (EvPrint (MsgFailedToFetch skin_name))) /\
  (forall cur b,
      fst (get_price url 3 w) = Ok (Some cur) ->
      fst r = Ok b ->
      last_event (snd r) = Some (EvSleep (CHECK_INTERVAL cfg))).
Proof.
  cbv zeta. split.
  - intros Hg. destruct (get_price_some url w _ Hg) as (w1 & Hg1 & _).
    rewrite (monitor_item_unavailable cfg base_prices skin_name url w w1 Hg1).
    apply last_event_emit.
  - intros cur b Hg. destruct (get_price_some url w _ Hg) as (w1 & Hg1 & _).
    rewrite (monitor_item_priced cfg base_prices skin_name url w w1 cur Hg1). cbv zeta.
    destruct (neb cur _); [|intros _; apply last_event_emit].
    destruct (on_change _ _ _ _ _ _) as [[b'|e] w2]; [|discriminate].
    intros _. apply last_event_emit.
Qed.

(** X14 on three failed attempts: the last event is the message. *)
Lemma pause_follows_a_fetched_price_witness :
  last_event (snd (monitor_item Scenario.cfg ∅ (Scenario.skin, Scenario.url)
                     (Scenario.start [] [] ∅)))
  = Some (EvPrint (MsgFailedToFetch Scenario.skin)).
Proof.
  apply (proj1 (pause_follows_a_fetched_price Scenario.cfg ∅ Scenario.skin Scenario.url
                  (Scenario.start [] [] ∅))).
  vm_compute. reflexivity.
Defined.

(** ** The supervisor *)

Lemma take_chars_count (n : nat) (s : string) :
  (Supervisor.char_count (Supervisor.take_chars n s) <= n)%nat.
Proof.
  revert n. induction s as [|c s IH]; intros n; [simpl; lia|].
  simpl. destruct (Supervisor.is_continuation c) eqn:E.
  - simpl. rewrite E. apply IH.
  - destruct n as [|n]; [simpl; lia|]. simpl. rewrite E. specialize (IH n). lia.
Qed.

Lemma take_chars_prefix (n : nat) (s : string) :
  exists rest, s = Supervisor.take_chars n s +:+ rest.
Proof.
  revert n. induction s as [|c s IH]; intros n; [now exists ""|].
  simpl. destruct (Supervisor.is_continuation c).
  - destruct (IH n) as [rest Hr]. exists rest. now rewrite str_app_cons, <- Hr.
  - destruct n as [|n]; [now exists (String c s)|].
    destruct (IH n) as [rest Hr]. exists rest. now rewrite str_app_cons, <- Hr.
Qed.

Lemma take_chars_short (n : nat) (s : string) :
  (Supervisor.char_count s <= n)%nat -> Supervisor.take_chars n s = s.
Proof.
  revert n. induction s as [|c s IH]; intros n H; [reflexivity|].
  simpl in *. destruct (Supervisor.is_continuation c).
  - now rewrite IH.
  - destruct n as [|n]; [lia|]. rewrite IH; [reflexivity | lia].
Qed.

Lemma supervise_once_run (cfg : config) (cycles : nat) (describe : exn -> string)
    (w : world) :
  Supervisor.supervise_once cfg cycles describe w =
  match main cfg cycles w with
  | (Ok _, w1) => (Ok [], w1)
  | (Raise e, w1) =>
      (Ok [Supervisor.LineCrashed (describe e); Supervisor.LineRestarting],
       emit (EvSleep 60)
         (snd (send_error_notification cfg
                 (Supervisor.take_chars 2000 (describe e)) w1)))
  end.
Proof.
  unfold Supervisor.supervise_once, try_except, bind, ret.
  destruct (main cfg cycles w) as [[b|e] w1]; [reflexivity|].
  cbn [is_Exception]. rewrite send_error_notification_run. reflexivity.
Qed.

(** X15: the supervisor never lets an exception through, whatever ends
    [main], whatever the webhook does with the error alert, and however
    many times it restarts. *)
Theorem supervise_never_raises
    (cfg : config) (cycles : nat) (describe : exn -> string) (rounds : nat) (w : world) :
  exists lines, fst (Supervisor.supervise cfg cycles describe rounds w) = Ok lines.
Proof.
  revert w. induction rounds as [|n IH]; intros w; [now exists []|].
  cbn [Supervisor.supervise]. unfold bind. rewrite supervise_once_run.
  destruct (main cfg cycles w) as [[b|e] w1].
  - destruct (IH w1) as [l Hl].
    destruct (Supervisor.supervise cfg cycles describe n w1) as [r w2].
    simpl in Hl. subst r. now eexists.
  - set (w2 := emit (EvSleep 60) _). destruct (IH w2) as [l Hl].
    destruct (Supervisor.supervise cfg cycles describe n w2) as [r w3].
    simpl in Hl. subst r. now eexists.
Qed.

(** X16: when [main] ends on an exception, the supervisor posts one error
    alert, whose text is the start of the error text and has 2000
    characters at most (the whole text when that is no longer), touches no
    file, and sleeps 60 seconds before it starts [main] again. *)
Theorem supervise_reports_a_crash
    (cfg : config) (cycles : nat) (describe : exn -> string) (w : world) (e : exn) :
  fst (main cfg cycles w) = Raise e ->
  let crashed := snd (main cfg cycles w) in
  let r := Supervisor.supervise_once cfg cycles describe w in
  let text := Supervisor.take_chars 2000 (describe e) in
  fst r = Ok [Supervisor.LineCrashed (describe e); Supervisor.LineRestarting] /\
  posts_of (trace (snd r))
  = posts_of (trace crashed) ++
    [(IFTTT_URL cfg, [("value1", "Steam Price Alert Error"); ("value2", text)])] /\
  (Supervisor.char_count text <= 2000)%nat /\
  (exists rest, describe e = text +:+ rest) /\
  ((Supervisor.char_count (describe e) <= 2000)%nat -> text = describe e) /\
  files (snd r) = files crashed /\
  last_event (snd r) = Some (EvSleep 60).
Proof.
  intros H. cbv zeta. rewrite supervise_once_run.
  destruct (main cfg cycles w) as [[b|e'] w1]; [discriminate|].
  cbn [fst] in H. injection H as ->. cbn [fst snd].
  rewrite send_error_notification_run. cbv zeta. cbn [snd].
  split; [reflexivity|]. split.
  { cbn [trace emit count_post]. rewrite !posts_of_app. cbn [posts_of].
    now rewrite !app_nil_r. }
  split; [apply take_chars_count|]. split; [apply take_chars_prefix|].
  split; [apply take_chars_short|]. split; [reflexivity | apply last_event_emit].
Qed.

(** X16 on a webhook that cannot be reached: the price alert for the change
    from 100 to 112 ends [main], and the error alert is posted (in vain). *)
Lemma supervise_reports_a_crash_witness :
  let w := Runs.webhook_down in
  let r := Supervisor.supervise_once Scenario.cfg 1 Runs.describe w in
  fst r = Ok [Supervisor.LineCrashed (Runs.describe Timeout); Supervisor.LineRestarting] /\
  length (posts_of (trace (snd r))) = 2%nat /\
  last_event (snd r) = Some (EvSleep 60).
Proof.
  destruct (supervise_reports_a_crash Scenario.cfg 1 Runs.describe Runs.webhook_down Timeout)
    as (H1 & H2 & _ & _ & _ & _ & H7).
  - vm_compute. reflexivity.
  - cbv zeta. split; [exact H1|]. split; [|exact H7].
    rewrite H2, length_app. vm_compute. reflexivity.
Defined.
